(** * MaltKeywordScraper: a shallow embedding of [scraper.py]

    The development follows the source file top to bottom: first the Python
    builtins the scraper relies on ([str.strip], [str.lower], [str.replace],
    [float], [int]), then the two text normalisers, the reveal loop, the row
    extractor, the sheet publisher and [main].

    Text is a [string] read as a sequence of code points below 256
    (Latin-1); exceptions are values of [outcome]; binary64 arithmetic is the
    one of [SpecFloat] with [prec = 53] and [emax = 1024]. *)

From Stdlib Require Import ZArith NArith List Bool Lia.
From Stdlib Require Import Strings.Ascii Strings.String.
From Stdlib Require Import DecimalString DecimalN.
From Stdlib Require Import Floats.SpecFloat.
From Equations Require Import Equations.
Import ListNotations.

Local Open Scope string_scope.
Local Open Scope list_scope.
Local Open Scope Z_scope.

(** ** Exceptions

    Every [except] clause of the source is [except Exception]; [exn] stands
    for the instances of [Exception] that the builtins, the browser driver
    and the Sheets client raise. *)

Inductive exn : Type :=
| ValueError
| OverflowError
| AttributeError
| KeyError
| IndexError
| FileNotFoundError
| UnicodeEncodeError
| LibraryError (msg : string).

Inductive outcome (A : Type) : Type :=
| Ok (a : A)
| Raise (e : exn).

Arguments Ok {A} a.
Arguments Raise {A} e.

Definition bind {A B : Type} (x : outcome A) (k : A -> outcome B) : outcome B :=
  match x with
  | Ok a => k a
  | Raise e => Raise e
  end.

(** [try: body / except Exception: handler] *)
Definition try_except {A : Type} (body : outcome A) (handler : exn -> outcome A)
  : outcome A :=
  match body with
  | Ok a => Ok a
  | Raise e => handler e
  end.

Declare Scope py_scope.
Delimit Scope py_scope with py.
Notation "x <- c ;; k" := (bind c (fun x => k))
  (at level 61, c at next level, right associativity) : py_scope.

(** ** Python builtins on text *)

Module Py.

Definition code (c : ascii) : N := N_of_ascii c.

(** [str.isspace] per character, as used by [str.strip()]:
    TAB..CR, FS..US, SPACE, NEL (0x85) and NBSP (0xA0). *)
Definition is_space (c : ascii) : bool :=
  let n := code c in
  ((9 <=? n) && (n <=? 13) || (28 <=? n) && (n <=? 32)
   || (n =? 133) || (n =? 160))%N.

(** Whitespace skipped by [float] and [int] around the number: the C
    [isspace] set, plus NEL and NBSP which the conversion to ASCII turns
    into a space.  FS..US are not in it. *)
Definition is_num_space (c : ascii) : bool :=
  let n := code c in
  ((9 <=? n) && (n <=? 13) || (n =? 32) || (n =? 133) || (n =? 160))%N.

Definition is_digit (c : ascii) : bool :=
  let n := code c in ((48 <=? n) && (n <=? 57))%N.

Definition digit_val (c : ascii) : Z := Z.of_N (code c) - 48.

(** [str.lower] on one code point: A..Z and the Latin-1 capitals
    0xC0..0xDE except the multiplication sign 0xD7. *)
Definition lower_char (c : ascii) : ascii :=
  let n := code c in
  if ((65 <=? n) && (n <=? 90)
      || (192 <=? n) && (n <=? 222) && negb (n =? 215))%N
  then ascii_of_N (n + 32) else c.

Fixpoint lower (s : string) : string :=
  match s with
  | EmptyString => EmptyString
  | String c r => String (lower_char c) (lower r)
  end.

Fixpoint lstrip_by (sp : ascii -> bool) (s : string) : string :=
  match s with
  | EmptyString => EmptyString
  | String c r => if sp c then lstrip_by sp r else s
  end.

Fixpoint rstrip_by (sp : ascii -> bool) (s : string) : string :=
  match s with
  | EmptyString => EmptyString
  | String c r =>
      match rstrip_by sp r with
      | EmptyString => if sp c then EmptyString else String c EmptyString
      | r' => String c r'
      end
  end.

(** [s.strip()] *)
Definition strip (s : string) : string := lstrip_by is_space (rstrip_by is_space s).

(** [s.replace(c, '')] for a one-character [c] *)
Fixpoint remove_char (c : ascii) (s : string) : string :=
  match s with
  | EmptyString => EmptyString
  | String d r => if Ascii.eqb d c then remove_char c r else String d (remove_char c r)
  end.

(** [c in s] for a one-character [c] *)
Fixpoint contains (c : ascii) (s : string) : bool :=
  match s with
  | EmptyString => false
  | String d r => Ascii.eqb d c || contains c r
  end.

(** Truth value of a string: [not s] is [is_empty s]. *)
Definition is_empty (s : string) : bool :=
  match s with EmptyString => true | _ => false end.

(** *** Digit strings *)

Fixpoint take_digits (s : string) : string * string :=
  match s with
  | EmptyString => (EmptyString, EmptyString)
  | String c r =>
      if is_digit c then let (d, t) := take_digits r in (String c d, t)
      else (EmptyString, s)
  end.

Fixpoint digits_val_from (acc : Z) (s : string) : Z :=
  match s with
  | EmptyString => acc
  | String c r => digits_val_from (10 * acc + digit_val c) r
  end.

Definition digits_val (s : string) : Z := digits_val_from 0 s.

Fixpoint drop_zeros (s : string) : string :=
  match s with
  | String "0" r => drop_zeros r
  | _ => s
  end.

Definition len (s : string) : Z := Z.of_nat (String.length s).

Definition parse_sign (s : string) : bool * string :=
  match s with
  | String "-" r => (true, r)
  | String "+" r => (false, r)
  | _ => (false, s)
  end.

(** *** binary64 *)

Definition prec : Z := 53.
Definition emax : Z := 1024.

Definition float : Type := spec_float.

(** The double nearest to [(-1)^sg * num / den] (ties to even), for
    [num, den > 0]; an overflow gives an infinity, an underflow a zero. *)
Definition round_ratio (sg : bool) (num den : Z) : float :=
  let '(q, e, loc) := SFdiv_core_binary prec emax num 0 den 0 in
  binary_round_aux prec emax sg q e loc.

(** Python [int] to [float], as done by [float * int]. *)
Definition float_of_Z (n : Z) : float := binary_normalize prec emax n 0 false.

Definition fmul (x y : float) : float := SFmul prec emax x y.

(** [int(x)] for a float [x]: truncation towards zero; infinities raise
    [OverflowError], NaN raises [ValueError]. *)
Definition int_of_float (x : float) : outcome Z :=
  match x with
  | S754_zero _ => Ok 0
  | S754_infinity _ => Raise OverflowError
  | S754_nan => Raise ValueError
  | S754_finite sg m e =>
      let a := if 0 <=? e then Z.shiftl (Zpos m) e else Z.shiftr (Zpos m) (- e) in
      Ok (if sg then - a else a)
  end.

(** *** [float(s)] for a string [s] *)

(** Underscores may only stand between two digits; they are removed
    before the number is read ([prev] is the character before [s]). *)
Fixpoint strip_underscores (prev : ascii) (s : string) : option string :=
  match s with
  | EmptyString => if Ascii.eqb prev "_" then None else Some EmptyString
  | String c r =>
      if Ascii.eqb c "_" then
        if is_digit prev then strip_underscores c r else None
      else if Ascii.eqb prev "_" && negb (is_digit c) then None
      else option_map (String c) (strip_underscores c r)
  end.

(** The longest digit count [dtoa.c] accepts ([MAX_DIGITS]). *)
Definition MAX_DIGITS : Z := 1000000000.

(** A decimal literal: sign, integer digits, fraction digits, exponent.
    At least one digit is required in the mantissa, and one in the
    exponent when an [e] is present; nothing may follow. *)
Definition parse_decimal (s : string) : option (bool * string * string * Z) :=
  let (sg, s1) := parse_sign s in
  let (ip, s2) := take_digits s1 in
  let (fp, s3) :=
    match s2 with
    | String "." r => take_digits r
    | _ => (EmptyString, s2)
    end in
  if is_empty ip && is_empty fp then None
  else if (MAX_DIGITS <? len (drop_zeros (ip ++ fp)%string)) || (MAX_DIGITS <? len fp)
  then None
  else
    match s3 with
    | EmptyString => Some (sg, ip, fp, 0)
    | String c r =>
        if Ascii.eqb (lower_char c) "e" then
          let (esg, r1) := parse_sign r in
          let (ed, r2) := take_digits r1 in
          if negb (is_empty ed) && is_empty r2
          then Some (sg, ip, fp, if esg then - digits_val ed else digits_val ed)
          else None
        else None
    end.

(** [inf], [infinity] and [nan], in any letter case, with an optional
    sign. *)
Definition parse_inf_nan (s : string) : option float :=
  let (sg, r) := parse_sign s in
  let w := lower r in
  if String.eqb w "inf" || String.eqb w "infinity" then Some (S754_infinity sg)
  else if String.eqb w "nan" then Some S754_nan
  else None.

(** Correctly rounded value of a parsed literal. *)
Definition decimal_to_float (sg : bool) (ip fp : string) (e : Z) : float :=
  let d := digits_val (ip ++ fp)%string in
  let e10 := e - len fp in
  if d =? 0 then S754_zero sg
  else round_ratio sg (d * 10 ^ Z.max e10 0) (10 ^ Z.max (- e10) 0).

Definition float_of_str (s : string) : outcome float :=
  match strip_underscores "000" s with
  | None => Raise ValueError
  | Some s1 =>
      let s2 := lstrip_by is_num_space (rstrip_by is_num_space s1) in
      match parse_decimal s2 with
      | Some (sg, ip, fp, e) => Ok (decimal_to_float sg ip fp e)
      | None =>
          match parse_inf_nan s2 with
          | Some x => Ok x
          | None => Raise ValueError
          end
      end
  end.

(** *** [int(s)] for a string [s], base 10 *)

(** Digits and single underscores; [prev] is the previous character.
    Returns the digits read and the unread rest. *)
Fixpoint scan_int_digits (prev : ascii) (s : string) : option (string * string) :=
  match s with
  | EmptyString => if Ascii.eqb prev "_" then None else Some (EmptyString, EmptyString)
  | String c r =>
      if Ascii.eqb c "_" then
        if Ascii.eqb prev "_" then None else scan_int_digits c r
      else if is_digit c then
        match scan_int_digits c r with
        | Some (d, t) => Some (String c d, t)
        | None => None
        end
      else if Ascii.eqb prev "_" then None else Some (EmptyString, s)
  end.

(** [sys.get_int_max_str_digits()] *)
Definition int_max_str_digits : Z := 4300.

Definition int_of_str (s : string) : outcome Z :=
  let (sg, s1) := parse_sign (lstrip_by is_num_space s) in
  match s1 with
  | String "_" _ => Raise ValueError
  | _ =>
      match scan_int_digits "000" s1 with
      | None => Raise ValueError
      | Some (d, t) =>
          if is_empty d then Raise ValueError
          else if negb (is_empty (lstrip_by is_num_space t)) then Raise ValueError
          else if int_max_str_digits <? len d then Raise ValueError
          else Ok (if sg then - digits_val d else digits_val d)
      end
  end.

(** *** [str(n)] for an integer [n] *)

Definition str_of_int (n : Z) : string := NilZero.string_of_int (Z.to_int n).

End Py.

(** ** Text Normalizer *)

(** [clean_appearances], lines 70-88.  The body of the [try] block may
    raise; the handler returns 0. *)
Definition clean_appearances_body (text : string) : outcome Z :=
  let text := Py.lower (Py.strip text) in
  if Py.contains "k" text then
    (number <- Py.float_of_str (Py.remove_char "k" text) ;;
     Py.int_of_float (Py.fmul number (Py.float_of_Z 1000)))%py
  else
    (x <- Py.float_of_str text ;; Py.int_of_float x)%py.

Definition clean_appearances_py (text : string) : outcome Z :=
  try_except (clean_appearances_body text) (fun _ => Ok 0).

Definition clean_appearances (text : string) : Z :=
  match clean_appearances_py text with
  | Ok n => n
  | Raise _ => 0
  end.

(** [clean_rank], lines 91-101. *)
Definition clean_rank_body (text : string) : outcome Z :=
  let text := Py.remove_char "#" (Py.strip text) in
  Py.int_of_str text.

Definition clean_rank_py (text : string) : outcome Z :=
  try_except (clean_rank_body text) (fun _ => Ok 0).

Definition clean_rank (text : string) : Z :=
  match clean_rank_py text with
  | Ok n => n
  | Raise _ => 0
  end.

(** ** Stateful collaborators

    Calls on the browser page and on the Sheets client change a state and
    may raise: [M S A] is a computation over a state [S] that ends in a
    value of [A] or in an exception, the state surviving both. *)

Definition M (S A : Type) : Type := S -> outcome A * S.

Definition ret {S A : Type} (a : A) : M S A := fun s => (Ok a, s).

Definition raise {S A : Type} (e : exn) : M S A := fun s => (Raise e, s).

Definition bindM {S A B : Type} (m : M S A) (k : A -> M S B) : M S B :=
  fun s =>
    match m s with
    | (Ok a, s') => k a s'
    | (Raise e, s') => (Raise e, s')
    end.

(** [try: body / except Exception as e: handler e] *)
Definition tryM {S A : Type} (body : M S A) (handler : exn -> M S A) : M S A :=
  fun s =>
    match body s with
    | (Ok a, s') => (Ok a, s')
    | (Raise e, s') => handler e s'
    end.

Declare Scope st_scope.
Delimit Scope st_scope with st.
Notation "x <- c ;; k" := (bindM c (fun x => k))
  (at level 61, c at next level, right associativity) : st_scope.

(** ** Constants, lines 30-36 *)

Definition MALT_URL : string := "https://www.malt.fr/dashboard/freelancer/analytics".
Definition AUTH_FILE : string := "auth.json".
Definition CREDENTIALS_FILE : string := "credentials.json".
Definition SHEET_NAME : string := "Raw_Data".

(** ** The page abstraction *)

(** What [text_content()] gives for one [span]: a text, [None], or an
    exception. *)
Definition span : Type := outcome (option string).

(** What [row.locator("span").all()] gives for one row. *)
Definition row : Type := outcome (list span).

(** The calls of the scraper on a page whose browser-side state is a
    [page]. *)
Record Page (page : Type) : Type := {
  (** [page.locator('button:has-text(...)').first] *)
  locator_first : page -> outcome unit * page;
  is_visible : page -> outcome bool * page;
  click : page -> outcome unit * page;
  wait_for_timeout : Z -> page -> outcome unit * page;
  (** [page.locator(".keywords__row").all()], each row with what its own
      queries answer *)
  locator_all : page -> outcome (list row) * page
}.

Arguments locator_first {page} _ _.
Arguments is_visible {page} _ _.
Arguments click {page} _ _.
Arguments wait_for_timeout {page} _ _ _.
Arguments locator_all {page} _ _.

(** The page calls performed so far are recorded next to the page state. *)
Inductive page_call : Type :=
| CallLocator
| CallIsVisible
| CallClick
| CallWait (ms : Z)
| CallLocatorAll
| CallApplyStealth
| CallGoto (url : string)
| CallWaitForSelector (selector : string) (timeout : Z)
| CallClose.

Record world (page : Type) : Type := {
  page_state : page;
  page_calls : list page_call
}.

Arguments page_state {page} _.
Arguments page_calls {page} _.

Definition perform {page A : Type} (c : page_call) (op : page -> outcome A * page)
  : M (world page) A :=
  fun w =>
    let (r, s) := op (page_state w) in
    (r, {| page_state := s; page_calls := page_calls w ++ [c] |}).

(** ** Incremental Revealer: [expand_keyword_table], lines 104-139 *)

Definition max_attempts : Z := 100.

Inductive loop_control : Type := LoopNext | LoopBreak.

(** The body of the inner [try], lines 116-130. *)
Definition expansion_attempt {page : Type} (p : Page page) : M (world page) loop_control :=
  (_ <- perform CallLocator (locator_first p) ;;
   visible <- perform CallIsVisible (is_visible p) ;;
   if negb visible then ret LoopBreak
   else
     _ <- perform CallClick (click p) ;;
     _ <- perform (CallWait 2000) (wait_for_timeout p 2000) ;;
     ret LoopNext)%st.

(** One turn of the [while] loop: the inner [try] with its handler, which
    also breaks. *)
Definition expansion_iteration {page : Type} (p : Page page) : M (world page) loop_control :=
  tryM (expansion_attempt p) (fun _ => ret LoopBreak).

Definition remaining_attempts (expansion_count : Z) : nat :=
  Z.to_nat (max_attempts - expansion_count).

(** Keeps the equation [a = b] when matching on [a]. *)
Definition inspect {A : Type} (a : A) : {b : A | a = b} := exist _ a eq_refl.

(** The [while] loop, lines 113-134: it runs as long as the counter is
    below the cap and the iteration neither breaks nor raises.  The inner
    handler catches what an iteration raises, so the outer [try] of line
    112 has nothing left to catch. *)
Equations? expand_loop {page : Type} (p : Page page) (expansion_count : Z)
  (w : world page) : Z * world page
  by wf (remaining_attempts expansion_count) lt :=
expand_loop p expansion_count w with inspect (expansion_count <? max_attempts) := {
  | exist _ false guard => (expansion_count, w)
  | exist _ true guard with expansion_iteration p w := {
      | pair (Ok LoopNext) w' => expand_loop p (expansion_count + 1) w'
      | pair (Ok LoopBreak) w' => (expansion_count, w')
      | pair (Raise _) w' => (expansion_count, w')
    }
  }.
Proof.
  unfold remaining_attempts. apply Z.ltb_lt in guard. lia.
Qed.

Definition expand_keyword_table {page : Type} (p : Page page) (w : world page)
  : Z * world page :=
  expand_loop p 0 w.

(** ** Row Extractor: [scrape_keyword_data], lines 142-193 *)

Record KeywordRecord : Type := {
  keyword : string;
  appearances : Z;
  rank : Z
}.

(** [spans[i].text_content().strip()]; a [None] text has no [strip]. *)
Definition span_text (spans : list span) (i : nat) : outcome string :=
  match nth_error spans i with
  | None => Raise IndexError
  | Some s =>
      (t <- s ;;
       match t with
       | Some text => Ok (Py.strip text)
       | None => Raise AttributeError
       end)%py
  end.

(** The body of the per-row [try], lines 157-182: [Ok None] is a
    [continue] taken before the [append]. *)
Definition extract_row (r : row) : outcome (option KeywordRecord) :=
  (spans <- r ;;
   if (Z.of_nat (List.length spans) <? 3) then Ok None
   else
     keyword <- span_text spans 0 ;;
     appearances_text <- span_text spans 1 ;;
     rank_text <- span_text spans 2 ;;
     if Py.is_empty keyword then Ok None
     else
       let appearances := clean_appearances appearances_text in
       let rank := clean_rank rank_text in
       Ok (Some {| keyword := keyword; appearances := appearances; rank := rank |}))%py.

(** The [for] loop, lines 154-186, with [keywords_data] as accumulator;
    a row that raises is skipped by the handler. *)
Fixpoint scrape_rows (rows : list row) (keywords_data : list KeywordRecord)
  : list KeywordRecord :=
  match rows with
  | [] => keywords_data
  | r :: rest =>
      match extract_row r with
      | Ok (Some item) => scrape_rows rest (keywords_data ++ [item])
      | Ok None => scrape_rows rest keywords_data
      | Raise _ => scrape_rows rest keywords_data
      end
  end.

Definition scrape_keyword_data {page : Type} (p : Page page)
  : M (world page) (list KeywordRecord) :=
  tryM
    (rows <- perform CallLocatorAll (locator_all p) ;;
     ret (scrape_rows rows []))%st
    (fun _ => ret []).

(** ** Sheet Publisher: [sync_to_google_sheets], lines 196-298 *)

Inductive cell : Type :=
| CellText (s : string)
| CellInt (n : Z).

Definition sheet_row : Type := list cell.

(** The file and network operations of the publisher, and what each
    answers in the run at hand. *)
Record Sheets : Type := {
  SPREADSHEET_ID : string;
  (** [os.path.exists(CREDENTIALS_FILE)] *)
  credentials_file_exists : bool;
  from_service_account_file : outcome unit;
  build : outcome unit;
  (** [spreadsheets().get(...).execute()]: the sheets of the answer, each
      with its [properties.title] when it has one *)
  get_execute : outcome (list (option string));
  (** [datetime.now().strftime("%Y-%m-%d")] *)
  today : string;
  (** [spreadsheets().values().append(..., body).execute()] *)
  append_execute : list sheet_row -> outcome unit
}.

Inductive sheets_call : Type :=
| CallPathExists (file : string)
| CallFromServiceAccountFile (file : string)
| CallBuild
| CallGet
| CallAppend (range : string) (values : list sheet_row).

Definition trace : Type := list sheets_call.

Definition request {A : Type} (c : sheets_call) (answer : outcome A) : M trace A :=
  fun t => (answer, t ++ [c]).

(** [load_google_credentials], lines 52-67: the handler logs and
    re-raises. *)
Definition load_google_credentials (g : Sheets) : M trace unit :=
  tryM
    (present <- request (CallPathExists CREDENTIALS_FILE) (Ok (credentials_file_exists g)) ;;
     if negb present then raise FileNotFoundError
     else request (CallFromServiceAccountFile CREDENTIALS_FILE) (from_service_account_file g))%st
    (fun e => raise e).

(** [[sheet["properties"]["title"] for sheet in sheets]] *)
Fixpoint sheet_titles (sheets : list (option string)) : outcome (list string) :=
  match sheets with
  | [] => Ok []
  | None :: _ => Raise KeyError
  | Some title :: rest => (names <- sheet_titles rest ;; Ok (title :: names))%py
  end.

Definition lift {S A : Type} (x : outcome A) : M S A := fun s => (x, s).

(** [name in names] for strings *)
Definition name_in (name : string) (names : list string) : bool :=
  existsb (String.eqb name) names.

(** Lines 218-239: [Some b] when the block returns [b], [None] when
    control falls through to line 241. *)
Definition verify_sheet (g : Sheets) : M trace (option bool) :=
  tryM
    (sheets <- request CallGet (get_execute g) ;;
     sheet_names <- lift (sheet_titles sheets) ;;
     if negb (name_in SHEET_NAME sheet_names) then ret (Some false)
     else ret None)%st
    (fun _ => ret (Some false)).

(** Lines 246-254 *)
Fixpoint prepare_rows (today : string) (keywords_data : list KeywordRecord)
  (rows : list sheet_row) : list sheet_row :=
  match keywords_data with
  | [] => rows
  | item :: rest =>
      let row := [CellText today; CellText (keyword item);
                  CellInt (appearances item); CellInt (rank item)] in
      prepare_rows today rest (rows ++ [row])
  end.

Definition append_range : string := (SHEET_NAME ++ "!A:D")%string.

(** Lines 264-294 *)
Definition append_rows (g : Sheets) (rows : list sheet_row) : M trace bool :=
  tryM
    (_ <- request (CallAppend append_range rows) (append_execute g rows) ;;
     ret true)%st
    (fun _ => ret false).

Definition sync_to_google_sheets (g : Sheets) (keywords_data : list KeywordRecord)
  : M trace bool :=
  tryM
    (if Py.is_empty (SPREADSHEET_ID g) then ret false
     else if (match keywords_data with [] => true | _ => false end) then ret false
     else
       _ <- load_google_credentials g ;;
       _ <- request CallBuild (build g) ;;
       verdict <- verify_sheet g ;;
       match verdict with
       | Some b => ret b
       | None =>
           let rows := prepare_rows (today g) keywords_data [] in
           append_rows g rows
       end)%st
    (fun _ => ret false).

(** ** Run Orchestrator: [main], lines 301-362 *)

(** A value read by [json.load], with its truth value. *)
Record json : Type := {
  json_text : string;
  json_truthy : bool
}.

(** The session file and the browser driver, and what each of their
    operations answers in the run at hand. *)
Record Browser (page : Type) : Type := {
  (** [os.path.exists(AUTH_FILE)] *)
  auth_file_exists : bool;
  (** [open(AUTH_FILE)] followed by [json.load] *)
  read_auth_file : outcome json;
  (** entering and leaving [with sync_playwright() as p] *)
  playwright_enter : outcome unit;
  playwright_exit : outcome unit;
  launch : outcome unit;
  (** [browser.new_context] with [context_kwargs], given the
      [storage_state] entry when there is one *)
  new_context : option json -> outcome unit;
  new_page : outcome page;
  apply_stealth_sync : page -> outcome unit * page;
  goto : string -> page -> outcome unit * page;
  wait_for_selector : string -> Z -> page -> outcome unit * page;
  browser_close : page -> outcome unit * page
}.

Arguments auth_file_exists {page} _.
Arguments read_auth_file {page} _.
Arguments playwright_enter {page} _.
Arguments playwright_exit {page} _.
Arguments launch {page} _.
Arguments new_context {page} _ _.
Arguments new_page {page} _.
Arguments apply_stealth_sync {page} _ _.
Arguments goto {page} _ _ _.
Arguments wait_for_selector {page} _ _ _ _.
Arguments browser_close {page} _ _.

(** [load_auth_storage], lines 39-49 *)
Definition load_auth_storage {page : Type} (b : Browser page) : option json :=
  match
    try_except
      (if auth_file_exists b then (v <- read_auth_file b ;; Ok (Some v))%py
       else Ok None)
      (fun _ => Ok None)
  with
  | Ok v => v
  | Raise _ => None
  end.

(** [context_kwargs], lines 315-320 *)
Definition storage_state (auth_storage : option json) : option json :=
  match auth_storage with
  | Some v => if json_truthy v then Some v else None
  | None => None
  end.

(** Lines 326-343, on the page just created. *)
Definition page_session {page : Type} (b : Browser page) (p : Page page)
  : M (world page) (Z * list KeywordRecord) :=
  (_ <- perform CallApplyStealth (apply_stealth_sync b) ;;
   _ <- perform (CallGoto MALT_URL) (goto b MALT_URL) ;;
   _ <- perform (CallWaitForSelector ".keywords__row" 15000)
          (wait_for_selector b ".keywords__row" 15000) ;;
   expansion_count <- (fun w => let (n, w') := expand_keyword_table p w in (Ok n, w')) ;;
   keywords_data <- scrape_keyword_data p ;;
   _ <- perform CallClose (browser_close b) ;;
   ret (expansion_count, keywords_data))%st.

(** The body of the [with] block, lines 311-343. *)
Definition browser_session {page : Type} (b : Browser page) (p : Page page)
  (auth_storage : option json) : outcome (Z * list KeywordRecord) :=
  (_ <- launch b ;;
   _ <- new_context b (storage_state auth_storage) ;;
   s <- new_page b ;;
   fst (page_session b p {| page_state := s; page_calls := [] |}))%py.

(** [with sync_playwright() as p: body]: the manager is left on both
    ways out of the body, and does not swallow the exception. *)
Definition with_playwright {page A : Type} (b : Browser page) (body : outcome A)
  : outcome A :=
  (_ <- playwright_enter b ;;
   match body with
   | Ok a => _ <- playwright_exit b ;; Ok a
   | Raise e =>
       match playwright_exit b with
       | Ok _ => Raise e
       | Raise e' => Raise e'
       end
   end)%py.

(** *** The console

    [print] encodes a text for the standard output and writes it; it
    raises when the console cannot take the text: [UnicodeEncodeError]
    for a character outside the encoding of the console, an [OSError] for
    a closed pipe.  The summary of [main] holds characters beyond
    Latin-1, so a printed text is the list of its code points.  No text is
    printed twice in a run, so a function of the text gives what any
    console answers to each call. *)
Definition console_text : Type := list N.

Definition text_of (s : string) : console_text :=
  map Py.code (list_ascii_of_string s).

Record Console : Type := {
  (** [print(t)] for the texts of the summary, lines 350-355 *)
  print : console_text -> outcome unit;
  (** [print] of the error line, line 361, for the exception caught *)
  print_error : exn -> outcome unit
}.

(** The line of 60 [=] signs, and the line feed. *)
Definition rule : string :=
  "============================================================".

Definition newline : string := String "010" "".

(** The check mark U+2713 and the ballot cross U+2717 of line 354. *)
Definition check_mark : N := 10003.
Definition ballot_cross : N := 10007.

(** The six texts of the final summary, lines 350-355, in order. *)
Definition summary (expansion_count scraped_count : Z) (sync_successful : bool)
  : list console_text :=
  [ text_of (newline ++ rule)%string;
    text_of "Scraping Complete!";
    text_of rule;
    text_of ("Expanded " ++ Py.str_of_int expansion_count ++ " times. Scraped "
             ++ Py.str_of_int scraped_count ++ " keywords.")%string;
    text_of "Google Sheets Sync: "
      ++ (if sync_successful then check_mark :: text_of " Success"
          else ballot_cross :: text_of " Failed");
    text_of (rule ++ newline)%string ].

Fixpoint print_all (c : Console) (texts : list console_text) : outcome unit :=
  match texts with
  | [] => Ok tt
  | t :: rest => (_ <- print c t ;; print_all c rest)%py
  end.

Definition print_summary (c : Console) (expansion_count scraped_count : Z)
  (sync_successful : bool) : outcome unit :=
  print_all c (summary expansion_count scraped_count sync_successful).

(** The [try] block of [main], lines 307-357: the browser session, the
    publisher, the summary on the console, the status. *)
Definition main_body {page : Type} (b : Browser page) (p : Page page) (g : Sheets)
  (c : Console) : outcome Z :=
  let auth_storage := load_auth_storage b in
  (scraped <- with_playwright b (browser_session b p auth_storage) ;;
   let expansion_count := fst scraped in
   let keywords_data := snd scraped in
   let scraped_count := Z.of_nat (List.length keywords_data) in
   sync_successful <- fst (sync_to_google_sheets g keywords_data []) ;;
   _ <- print_summary c expansion_count scraped_count sync_successful ;;
   Ok (if sync_successful : bool then 0 else 1))%py.

(** [main], lines 301-362.  The handler prints the error and returns 1;
    an exception raised by that [print] leaves [main]. *)
Definition main_py {page : Type} (b : Browser page) (p : Page page) (g : Sheets)
  (c : Console) : outcome Z :=
  try_except (main_body b p g c) (fun e => (_ <- print_error c e ;; Ok 1)%py).

(** The exit status of [exit(main())], lines 365-366: the value [main]
    returns, and 1 when an exception leaves [main] and ends the
    interpreter. *)
Definition main {page : Type} (b : Browser page) (p : Page page) (g : Sheets)
  (c : Console) : Z :=
  match main_py b p g c with
  | Ok status => status
  | Raise _ => 1
  end.

(** ** Vocabulary of the specification

    The definitions below do not come from the source: they name the
    situations the specification speaks about, and give the two
    normalisers as the specification words them, to be compared with the
    code. *)

(** A probe of the reveal control that finds it absent or hidden. *)
Definition control_hidden {page : Type} (p : Page page) (s : page) : option page :=
  match locator_first p s with
  | (Ok _, s1) =>
      match is_visible p s1 with
      | (Ok false, s2) => Some s2
      | _ => None
      end
  | _ => None
  end.

(** A probe that finds the control visible, followed by a click and a
    settle delay that both succeed. *)
Definition control_activated {page : Type} (p : Page page) (s : page) : option page :=
  match locator_first p s with
  | (Ok _, s1) =>
      match is_visible p s1 with
      | (Ok true, s2) =>
          match click p s2 with
          | (Ok _, s3) =>
              match wait_for_timeout p 2000 s3 with
              | (Ok _, s4) => Some s4
              | _ => None
              end
          | _ => None
          end
      | _ => None
      end
  | _ => None
  end.

(** The control is interactable for [n] iterations in a row. *)
Fixpoint interactable_for {page : Type} (p : Page page) (n : nat) (s : page)
  : option page :=
  match n with
  | O => Some s
  | S k =>
      match control_activated p s with
      | Some s' => interactable_for p k s'
      | None => None
      end
  end.

(** One of the four page calls of an iteration raises. *)
Definition control_raises {page : Type} (p : Page page) (s : page) : bool :=
  match fst (expansion_attempt p {| page_state := s; page_calls := [] |}) with
  | Raise _ => true
  | Ok _ => false
  end.

(** The record a row contributes to the output, if any. *)
Definition emitted (r : row) : list KeywordRecord :=
  match extract_row r with
  | Ok (Some item) => [item]
  | _ => []
  end.

(** The appearance and rank cells of a row carry no minus sign. *)
Definition cell_without_minus (s : span) : bool :=
  match s with
  | Ok (Some text) => negb (Py.contains "-" text)
  | _ => true
  end.

Definition row_without_minus (r : row) : bool :=
  match r with
  | Ok (_ :: a :: b :: _) => cell_without_minus a && cell_without_minus b
  | _ => true
  end.

(** The sheet row of a record. *)
Definition sheet_row_of (date : string) (item : KeywordRecord) : sheet_row :=
  [CellText date; CellText (keyword item); CellInt (appearances item); CellInt (rank item)].

(** The exact value of a decimal literal, [(-1)^sg * d * 10^e10], read with
    the syntax of [Py.float_of_str]; infinities and NaN are not decimal
    numbers. *)
Definition decimal_of_str (s : string) : option (bool * Z * Z) :=
  match Py.strip_underscores "000" s with
  | None => None
  | Some s1 =>
      match Py.parse_decimal
              (Py.lstrip_by Py.is_num_space (Py.rstrip_by Py.is_num_space s1)) with
      | Some (sg, ip, fp, e) => Some (sg, Py.digits_val (ip ++ fp)%string, e - Py.len fp)
      | None => None
      end
  end.

(** [truncate (value * scale)] in exact arithmetic. *)
Definition truncate_scaled (v : bool * Z * Z) (scale : Z) : Z :=
  let '(sg, d, e10) := v in
  let a := if 0 <=? e10 then d * scale * 10 ^ e10
           else Z.quot (d * scale) (10 ^ (- e10)) in
  if sg then - a else a.

(** [normalize_count] as the specification words it. *)
Definition normalize_count (text : string) : Z :=
  let text := Py.lower (Py.strip text) in
  if Py.contains "k" text then
    match decimal_of_str (Py.remove_char "k" text) with
    | Some v => truncate_scaled v 1000
    | None => 0
    end
  else
    match decimal_of_str text with
    | Some v => truncate_scaled v 1
    | None => 0
    end.

(** [normalize_rank] as the specification words it: only a leading marker
    is stripped. *)
Definition normalize_rank (text : string) : Z :=
  let text := Py.strip text in
  let text := match text with String "#" r => r | _ => text end in
  match Py.int_of_str text with
  | Ok n => n
  | Raise _ => 0
  end.

(** The trimmed text has no marker after its first character. *)
Definition marker_only_leading (text : string) : bool :=
  match Py.strip text with
  | EmptyString => true
  | String _ r => negb (Py.contains "#" r)
  end.

(** ** Example pages and clients

    Concrete collaborators on which the definitions can be run. *)

(** A page whose state is the number of times the control can still be
    activated; it shows no rows. *)
Definition countdown_page : Page nat := {|
  locator_first := fun s => (Ok tt, s);
  is_visible := fun s => (Ok (negb (Nat.eqb s 0)), s);
  click := fun s => (Ok tt, Nat.pred s);
  wait_for_timeout := fun _ s => (Ok tt, s);
  locator_all := fun s => (Ok [], s)
|}.

(** The same page, except that a click on the last activation raises. *)
Definition detaching_page : Page nat := {|
  locator_first := fun s => (Ok tt, s);
  is_visible := fun s => (Ok true, s);
  click := fun s =>
    if Nat.eqb s 0 then (Raise (LibraryError "Element is not attached"), s)
    else (Ok tt, Nat.pred s);
  wait_for_timeout := fun _ s => (Ok tt, s);
  locator_all := fun s => (Ok [], s)
|}.

Definition fresh {page : Type} (s : page) : world page :=
  {| page_state := s; page_calls := [] |}.

(** The table of the end-to-end scenario of the specification, with a
    decorative row and a row without keyword added. *)
Definition text_span (text : string) : span := Ok (Some text).

Definition scenario_rows : list row := [
  Ok [text_span "Python"; text_span "1.2k"; text_span "#3"];
  Ok [text_span "header"; text_span "only"];
  Ok [text_span "   "; text_span "9"; text_span "#9"];
  Ok [text_span "Java"; text_span "47"; text_span "12"]
].

Definition static_page (rows : outcome (list row)) : Page unit := {|
  locator_first := fun s => (Ok tt, s);
  is_visible := fun s => (Ok false, s);
  click := fun s => (Ok tt, s);
  wait_for_timeout := fun _ s => (Ok tt, s);
  locator_all := fun s => (rows, s)
|}.

(** A table whose cells carry a minus sign. *)
Definition negative_rows : list row :=
  [Ok [text_span "Rocq"; text_span "-5"; text_span "-3"]].

(** A table whose second row is detached while it is read. *)
Definition flaky_rows : list row := [
  Ok [text_span "Python"; text_span "1.2k"; text_span "#3"];
  Ok [text_span "Go"; Raise (LibraryError "Element is not attached"); text_span "#7"];
  Ok [text_span "Java"; text_span "47"; text_span "12"]
].

(** A float that is not a negative finite number: [int] of it, when it is
    defined, is not negative. *)
Definition not_negative (x : Py.float) : Prop :=
  match x with
  | S754_finite true _ _ => False
  | _ => True
  end.

Fixpoint all_digits (s : string) : bool :=
  match s with
  | EmptyString => true
  | String c r => Py.is_digit c && all_digits r
  end.

Definition is_ok {A : Type} (x : outcome A) : bool :=
  match x with Ok _ => true | Raise _ => false end.

(** The metadata of the destination can be read and lists a sheet named
    [SHEET_NAME]. *)
Definition sheet_ready (g : Sheets) : bool :=
  match get_execute g with
  | Ok sheets =>
      match sheet_titles sheets with
      | Ok names => name_in SHEET_NAME names
      | Raise _ => false
      end
  | Raise _ => false
  end.

(** Every step of a publish succeeds. *)
Definition publish_ok (g : Sheets) (keywords_data : list KeywordRecord) : bool :=
  negb (Py.is_empty (SPREADSHEET_ID g))
  && negb (match keywords_data with [] => true | _ => false end)
  && credentials_file_exists g
  && is_ok (from_service_account_file g)
  && is_ok (build g)
  && sheet_ready g
  && is_ok (append_execute g (map (sheet_row_of (today g)) keywords_data)).

(** The file and network calls of a publish, each made only when the
    ones before it succeeded. *)
Definition sync_calls (g : Sheets) (keywords_data : list KeywordRecord) : trace :=
  if Py.is_empty (SPREADSHEET_ID g) then []
  else if (match keywords_data with [] => true | _ => false end) then []
  else
    CallPathExists CREDENTIALS_FILE ::
    if negb (credentials_file_exists g) then []
    else
      CallFromServiceAccountFile CREDENTIALS_FILE ::
      if negb (is_ok (from_service_account_file g)) then []
      else
        CallBuild ::
        if negb (is_ok (build g)) then []
        else
          CallGet ::
          if negb (sheet_ready g) then []
          else [CallAppend append_range (map (sheet_row_of (today g)) keywords_data)].

(** A destination that is set up as the publisher expects. *)
Definition ready_sheets : Sheets := {|
  SPREADSHEET_ID := "1AbCdEfGhIjKlMnOpQrStUvWxYz";
  credentials_file_exists := true;
  from_service_account_file := Ok tt;
  build := Ok tt;
  get_execute := Ok [Some "Summary"; Some "Raw_Data"];
  today := "2024-01-01";
  append_execute := fun _ => Ok tt
|}.

(** The same destination, with [SPREADSHEET_ID] left unset. *)
Definition unset_sheets : Sheets := {|
  SPREADSHEET_ID := "";
  credentials_file_exists := true;
  from_service_account_file := Ok tt;
  build := Ok tt;
  get_execute := Ok [Some "Summary"; Some "Raw_Data"];
  today := "2024-01-01";
  append_execute := fun _ => Ok tt
|}.

Definition scenario_records : list KeywordRecord := [
  {| keyword := "Python"; appearances := 1200; rank := 3 |};
  {| keyword := "Java"; appearances := 47; rank := 12 |}
].

(** A browser without saved session in which every call succeeds. *)
Definition plain_browser : Browser unit := {|
  auth_file_exists := false;
  read_auth_file := Raise FileNotFoundError;
  playwright_enter := Ok tt;
  playwright_exit := Ok tt;
  launch := Ok tt;
  new_context := fun _ => Ok tt;
  new_page := Ok tt;
  apply_stealth_sync := fun s => (Ok tt, s);
  goto := fun _ s => (Ok tt, s);
  wait_for_selector := fun _ _ s => (Ok tt, s);
  browser_close := fun s => (Ok tt, s)
|}.

(** What the [with] block of [main] hands over. *)
Definition scraped {page : Type} (b : Browser page) (p : Page page)
  : outcome (Z * list KeywordRecord) :=
  with_playwright b (browser_session b p (load_auth_storage b)).

(** A destination whose credential file is missing. *)
Definition uncredentialed_sheets : Sheets := {|
  SPREADSHEET_ID := "1AbCdEfGhIjKlMnOpQrStUvWxYz";
  credentials_file_exists := false;
  from_service_account_file := Ok tt;
  build := Ok tt;
  get_execute := Ok [Some "Summary"; Some "Raw_Data"];
  today := "2024-01-01";
  append_execute := fun _ => Ok tt
|}.

(** A destination whose metadata lists the expected sheet and a sheet
    without title. *)
Definition untitled_sheets : Sheets := {|
  SPREADSHEET_ID := "1AbCdEfGhIjKlMnOpQrStUvWxYz";
  credentials_file_exists := true;
  from_service_account_file := Ok tt;
  build := Ok tt;
  get_execute := Ok [Some "Raw_Data"; None];
  today := "2024-01-01";
  append_execute := fun _ => Ok tt
|}.

(** The clicks among a list of page calls, and the calls that belong to
    the reveal loop. *)
Definition is_click (c : page_call) : bool :=
  match c with CallClick => true | _ => false end.

Definition clicks (l : list page_call) : Z :=
  Z.of_nat (List.length (filter is_click l)).

Definition is_reveal_call (c : page_call) : bool :=
  match c with
  | CallLocator | CallIsVisible | CallClick => true
  | CallWait ms => ms =? 2000
  | _ => false
  end.

(** A browser whose session file cannot be parsed, and one whose
    [close] raises; every other call succeeds. *)
Definition corrupt_session_browser : Browser unit := {|
  auth_file_exists := true;
  read_auth_file := Raise ValueError;
  playwright_enter := Ok tt;
  playwright_exit := Ok tt;
  launch := Ok tt;
  new_context := fun _ => Ok tt;
  new_page := Ok tt;
  apply_stealth_sync := fun s => (Ok tt, s);
  goto := fun _ s => (Ok tt, s);
  wait_for_selector := fun _ _ s => (Ok tt, s);
  browser_close := fun s => (Ok tt, s)
|}.

Definition failing_close_browser : Browser unit := {|
  auth_file_exists := false;
  read_auth_file := Raise FileNotFoundError;
  playwright_enter := Ok tt;
  playwright_exit := Ok tt;
  launch := Ok tt;
  new_context := fun _ => Ok tt;
  new_page := Ok tt;
  apply_stealth_sync := fun s => (Ok tt, s);
  goto := fun _ s => (Ok tt, s);
  wait_for_selector := fun _ _ s => (Ok tt, s);
  browser_close := fun s => (Raise (LibraryError "Target closed"), s)
|}.

(** The decimal numeral of a natural number, as [str(n)] writes it. *)
Definition decimal_numeral (n : N) : string :=
  NilZero.string_of_uint (N.to_uint n).

(** A console that takes every text, and a console encoded in Latin-1,
    whose [print] raises [UnicodeEncodeError] on a text with a code point
    above 255; the error lines are taken to be ASCII. *)
Definition plain_console : Console := {|
  print := fun _ => Ok tt;
  print_error := fun _ => Ok tt
|}.

Definition latin1_console : Console := {|
  print := fun t =>
    if forallb (fun n => (n <? 256)%N) t then Ok tt else Raise UnicodeEncodeError;
  print_error := fun _ => Ok tt
|}.

(* ================================================================== *)
(** * Properties *)
(* ================================================================== *)

(** ** Incremental Revealer *)

Section Revealer.

Context {page : Type} (p : Page page).

Lemma expand_loop_step (n : Z) (w : world page) :
  expand_loop p n w =
  if n <? max_attempts then
    match expansion_iteration p w with
    | (Ok LoopNext, w') => expand_loop p (n + 1) w'
    | (_, w') => (n, w')
    end
  else (n, w).
Proof.
  funelim (expand_loop p n w);
    rewrite guard; try reflexivity;
    match goal with E : expansion_iteration _ _ = _ |- _ => rewrite E end;
    reflexivity.
Qed.

Lemma expand_loop_bounds (n : Z) (w : world page) :
  n <= max_attempts ->
  n <= fst (expand_loop p n w) <= max_attempts.
Proof.
  funelim (expand_loop p n w); intros Hn; simpl;
    try (apply Z.ltb_lt in guard);
    try match goal with IH : _ -> _ <= fst _ <= _ |- _ => specialize (IH ltac:(lia)) end;
    lia.
Qed.

Lemma attempt_hidden (w : world page) (s' : page) :
  control_hidden p (page_state w) = Some s' ->
  expansion_attempt p w =
  (Ok LoopBreak,
   {| page_state := s'; page_calls := page_calls w ++ [CallLocator; CallIsVisible] |}).
Proof.
  unfold control_hidden, expansion_attempt, bindM, perform, ret. simpl.
  destruct (locator_first p (page_state w)) as [[[]|e] s1]; try discriminate; simpl.
  destruct (is_visible p s1) as [[[|]|e] s2]; try discriminate; simpl.
  intros [= <-]. rewrite <- app_assoc. reflexivity.
Qed.

Lemma attempt_activated (w : world page) (s' : page) :
  control_activated p (page_state w) = Some s' ->
  expansion_attempt p w =
  (Ok LoopNext,
   {| page_state := s';
      page_calls := page_calls w ++ [CallLocator; CallIsVisible; CallClick; CallWait 2000] |}).
Proof.
  unfold control_activated, expansion_attempt, bindM, perform, ret. simpl.
  destruct (locator_first p (page_state w)) as [[[]|e] s1]; try discriminate; simpl.
  destruct (is_visible p s1) as [[[|]|e] s2]; try discriminate; simpl.
  destruct (click p s2) as [[[]|e] s3]; try discriminate; simpl.
  destruct (wait_for_timeout p 2000 s3) as [[[]|e] s4]; try discriminate; simpl.
  intros [= <-]. rewrite <- !app_assoc. reflexivity.
Qed.

(** The page calls do not read the record of calls. *)
Lemma attempt_calls_irrelevant (w : world page) :
  fst (expansion_attempt p w) = fst (expansion_attempt p (fresh (page_state w)))
  /\ page_state (snd (expansion_attempt p w))
     = page_state (snd (expansion_attempt p (fresh (page_state w)))).
Proof.
  unfold expansion_attempt, bindM, perform, ret, fresh. simpl.
  destruct (locator_first p (page_state w)) as [[[]|e] s1]; simpl; auto.
  destruct (is_visible p s1) as [[[|]|e] s2]; simpl; auto.
  destruct (click p s2) as [[[]|e] s3]; simpl; auto.
  destruct (wait_for_timeout p 2000 s3) as [[[]|e] s4]; simpl; auto.
Qed.

Lemma attempt_raises (w : world page) :
  control_raises p (page_state w) = true ->
  exists e w', expansion_attempt p w = (Raise e, w').
Proof.
  unfold control_raises. intros H.
  destruct (attempt_calls_irrelevant w) as [E _].
  destruct (expansion_attempt p w) as [r w'] eqn:A. unfold fresh in E. simpl in E.
  rewrite <- E in H. destruct r as [c|e]; [discriminate|]. eauto.
Qed.

Lemma iteration_of_attempt (w w' : world page) (r : outcome loop_control) :
  expansion_attempt p w = (r, w') ->
  expansion_iteration p w =
  (Ok match r with Ok c => c | Raise _ => LoopBreak end, w').
Proof.
  unfold expansion_iteration, tryM, ret. intros ->. destruct r; reflexivity.
Qed.

(** [n] successful iterations move the counter by [n]. *)
Lemma expand_loop_interactable (n : nat) :
  forall (c : Z) (w : world page) (s' : page),
    c + Z.of_nat n <= max_attempts ->
    interactable_for p n (page_state w) = Some s' ->
    exists w', page_state w' = s'
               /\ expand_loop p c w = expand_loop p (c + Z.of_nat n) w'.
Proof.
  induction n as [|n IH]; intros c w s' Hc H.
  - simpl in H. injection H as <-. exists w. rewrite Z.add_0_r. auto.
  - simpl in H. destruct (control_activated p (page_state w)) as [s1|] eqn:A;
      [|discriminate].
    apply attempt_activated in A. apply iteration_of_attempt in A.
    rewrite expand_loop_step, A.
    assert (G : (c <? max_attempts) = true) by (apply Z.ltb_lt; lia).
    rewrite G.
    destruct (IH (c + 1)
                {| page_state := s1;
                   page_calls := page_calls w
                     ++ [CallLocator; CallIsVisible; CallClick; CallWait 2000] |}
                s' ltac:(lia) H) as (w' & Hs & E).
    exists w'. split; [exact Hs|]. rewrite E. f_equal. lia.
Qed.

Lemma expand_loop_stops (c : Z) (w w' : world page) (r : outcome loop_control) :
  c < max_attempts ->
  expansion_attempt p w = (r, w') ->
  r <> Ok LoopNext ->
  expand_loop p c w = (c, w').
Proof.
  intros Hc A Hr. apply iteration_of_attempt in A.
  rewrite expand_loop_step, A.
  apply Z.ltb_lt in Hc. rewrite Hc.
  destruct r as [[|]|e]; try reflexivity. congruence.
Qed.

(** A control that stays interactable is activated [max_attempts] times
    and no more. *)
Lemma expand_loop_cap_reached (w : world page) (s' : page) :
  interactable_for p (Z.to_nat max_attempts) (page_state w) = Some s' ->
  fst (expand_loop p 0 w) = max_attempts.
Proof.
  intros H.
  destruct (expand_loop_interactable (Z.to_nat max_attempts) 0 w s') as (w' & _ & E);
    [unfold max_attempts; simpl; lia|exact H|].
  rewrite E, expand_loop_step.
  replace (0 + Z.of_nat (Z.to_nat max_attempts)) with max_attempts
    by (unfold max_attempts; simpl; lia).
  rewrite Z.ltb_irrefl. reflexivity.
Qed.

End Revealer.

(** C1.  [expand_keyword_table] is a total function whose result never
    exceeds the safety cap of 100.  When the first probe finds the reveal
    control hidden, it returns 0 after the two calls of the probe, without
    any click.  When the control can be activated [N] times in a row, with
    [N] below the cap, and is then found hidden, it returns exactly [N]. *)
Theorem expand_keyword_table_capped {page : Type} (p : Page page) (w : world page) :
  max_attempts = 100
  /\ 0 <= fst (expand_keyword_table p w) <= max_attempts
  /\ (forall s' : page,
        control_hidden p (page_state w) = Some s' ->
        expand_keyword_table p w =
        (0, {| page_state := s';
               page_calls := page_calls w ++ [CallLocator; CallIsVisible] |}))
  /\ (forall (N : nat) (s1 s2 : page),
        Z.of_nat N < max_attempts ->
        interactable_for p N (page_state w) = Some s1 ->
        control_hidden p s1 = Some s2 ->
        fst (expand_keyword_table p w) = Z.of_nat N
        /\ page_state (snd (expand_keyword_table p w)) = s2).
Proof.
  unfold expand_keyword_table.
  assert (cap : 0 <= max_attempts) by (unfold max_attempts; lia).
  split; [reflexivity|]. split; [|split].
  - apply (expand_loop_bounds p 0 w cap).
  - intros s' H. apply attempt_hidden in H.
    apply (expand_loop_stops p 0 w _ _ ltac:(reflexivity) H). discriminate.
  - intros N s1 s2 HN Hrun Hhid.
    destruct (expand_loop_interactable p N 0 w s1 ltac:(lia) Hrun) as (w1 & Hs & E).
    rewrite E. subst s1. apply attempt_hidden in Hhid.
    rewrite (expand_loop_stops p (0 + Z.of_nat N) w1 _ _ ltac:(lia) Hhid) by discriminate.
    split; reflexivity.
Qed.

Lemma expand_keyword_table_capped_witness :
  Z.of_nat 3 < max_attempts
  /\ interactable_for countdown_page 3 3%nat = Some 0%nat
  /\ control_hidden countdown_page 0%nat = Some 0%nat
  /\ fst (expand_keyword_table countdown_page (fresh 3%nat)) = 3.
Proof.
  split; [reflexivity|]. split; [reflexivity|]. split; [reflexivity|].
  destruct (expand_keyword_table_capped countdown_page (fresh 3%nat))
    as (_ & _ & _ & H).
  exact (proj1 (H 3%nat 0%nat 0%nat eq_refl eq_refl eq_refl)).
Defined.

(** ** Row Extractor *)

Lemma scrape_rows_acc (rows : list row) :
  forall acc, scrape_rows rows acc = acc ++ scrape_rows rows [].
Proof.
  induction rows as [|r rows IH]; intros acc; simpl.
  - now rewrite app_nil_r.
  - destruct (extract_row r) as [[item|]|e]; auto.
    rewrite (IH (acc ++ [item])), (IH [item]), <- app_assoc. reflexivity.
Qed.

(** The loop emits, row after row, what each row contributes. *)
Lemma scrape_rows_emitted (rows : list row) :
  scrape_rows rows [] = flat_map emitted rows.
Proof.
  induction rows as [|r rows IH]; simpl; [reflexivity|].
  unfold emitted at 1.
  destruct (extract_row r) as [[item|]|e]; simpl; auto.
  rewrite scrape_rows_acc, IH. reflexivity.
Qed.

Lemma scrape_rows_app (rows1 rows2 : list row) :
  scrape_rows (rows1 ++ rows2) [] = scrape_rows rows1 [] ++ scrape_rows rows2 [].
Proof.
  rewrite !scrape_rows_emitted. apply flat_map_app.
Qed.

Lemma extract_row_keyword (r : row) (item : KeywordRecord) :
  extract_row r = Ok (Some item) -> keyword item <> "".
Proof.
  unfold extract_row, bind. destruct r as [spans|e]; [|discriminate].
  destruct (Z.of_nat (List.length spans) <? 3); [discriminate|].
  destruct (span_text spans 0) as [k|e]; [|discriminate].
  destruct (span_text spans 1) as [a|e]; [|discriminate].
  destruct (span_text spans 2) as [b|e]; [|discriminate].
  destruct k as [|c k]; simpl; [discriminate|].
  intros [= <-]. simpl. discriminate.
Qed.

Lemma emitted_keyword (r : row) :
  Forall (fun item => keyword item <> "") (emitted r).
Proof.
  unfold emitted. destruct (extract_row r) as [[item|]|e] eqn:E; constructor.
  - exact (extract_row_keyword r item E).
  - constructor.
Qed.

Lemma emitted_short (spans : list span) :
  (List.length spans < 3)%nat -> emitted (Ok spans) = [].
Proof.
  intros H. unfold emitted, extract_row, bind.
  replace (Z.of_nat (List.length spans) <? 3) with true; [reflexivity|].
  symmetry. apply Z.ltb_lt. lia.
Qed.

Lemma emitted_blank (spans : list span) (text : string) :
  nth_error spans 0 = Some (Ok (Some text)) ->
  Py.strip text = "" ->
  emitted (Ok spans) = [].
Proof.
  intros H0 Hs. unfold emitted, extract_row, bind.
  destruct (Z.of_nat (List.length spans) <? 3); [reflexivity|].
  unfold span_text at 1. rewrite H0. simpl. rewrite Hs.
  destruct (span_text spans 1) as [a|e]; [|reflexivity].
  destruct (span_text spans 2) as [b|e]; reflexivity.
Qed.

Lemma emitted_raise (r : row) (e : exn) :
  extract_row r = Raise e -> emitted r = [].
Proof.
  unfold emitted. intros ->. reflexivity.
Qed.

Lemma scrape_keyword_data_rows {page : Type} (p : Page page) (w : world page)
  (rows : list row) (s : page) :
  locator_all p (page_state w) = (Ok rows, s) ->
  scrape_keyword_data p w =
  (Ok (flat_map emitted rows),
   {| page_state := s; page_calls := page_calls w ++ [CallLocatorAll] |}).
Proof.
  intros H. unfold scrape_keyword_data, tryM, bindM, perform, ret.
  rewrite H. rewrite scrape_rows_emitted. reflexivity.
Qed.

Lemma scrape_keyword_data_raise {page : Type} (p : Page page) (w : world page)
  (e : exn) (s : page) :
  locator_all p (page_state w) = (Raise e, s) ->
  scrape_keyword_data p w =
  (Ok [], {| page_state := s; page_calls := page_calls w ++ [CallLocatorAll] |}).
Proof.
  intros H. unfold scrape_keyword_data, tryM, bindM, perform, ret.
  rewrite H. reflexivity.
Qed.

(** C3.  [scrape_keyword_data] always returns a list, in which no record
    has an empty keyword.  When the row selector answers [rows], the list
    is made, in the order of [rows], of what each row contributes; it is
    empty when [rows] is.  A row with fewer than 3 spans contributes
    nothing, and neither does a row whose first text trims to empty. *)
Theorem scrape_keyword_data_filters {page : Type} (p : Page page) (w : world page) :
  (exists kd w', scrape_keyword_data p w = (Ok kd, w')
                 /\ Forall (fun item => keyword item <> "") kd)
  /\ (forall rows s,
        locator_all p (page_state w) = (Ok rows, s) ->
        fst (scrape_keyword_data p w) = Ok (flat_map emitted rows)
        /\ (rows = [] -> fst (scrape_keyword_data p w) = Ok []))
  /\ (forall spans, (List.length spans < 3)%nat -> emitted (Ok spans) = [])
  /\ (forall spans text,
        nth_error spans 0 = Some (Ok (Some text)) ->
        Py.strip text = "" ->
        emitted (Ok spans) = []).
Proof.
  split; [|split; [|split]].
  - destruct (locator_all p (page_state w)) as [[rows|e] s] eqn:L.
    + rewrite (scrape_keyword_data_rows p w rows s L).
      eexists _, _. split; [reflexivity|].
      clear L. induction rows as [|r rows IH]; simpl; [constructor|].
      apply Forall_app. split; [apply emitted_keyword|exact IH].
    + rewrite (scrape_keyword_data_raise p w e s L).
      eexists _, _. split; [reflexivity|constructor].
  - intros rows s L. rewrite (scrape_keyword_data_rows p w rows s L).
    split; [reflexivity|]. intros ->. reflexivity.
  - exact emitted_short.
  - exact emitted_blank.
Qed.

Lemma scrape_keyword_data_filters_witness :
  locator_all (static_page (Ok scenario_rows)) tt = (Ok scenario_rows, tt)
  /\ fst (scrape_keyword_data (static_page (Ok scenario_rows)) (fresh tt))
     = Ok [ {| keyword := "Python"; appearances := 1200; rank := 3 |};
            {| keyword := "Java"; appearances := 47; rank := 12 |} ].
Proof.
  split; [reflexivity|].
  destruct (scrape_keyword_data_filters (static_page (Ok scenario_rows)) (fresh tt))
    as (_ & H & _).
  destruct (H scenario_rows tt eq_refl) as [E _].
  rewrite E. vm_compute. reflexivity.
Defined.

(** C6.  A row whose extraction raises is skipped, and the rows before
    and after it are extracted as if it were not there.  When one of the
    page calls of the reveal loop raises after [N] activations, [N] below
    the cap, the loop ends and [expand_keyword_table] returns [N]; neither
    function hands the exception to its caller. *)
Theorem transient_errors_recovered {page : Type} (p : Page page) (w : world page) :
  (forall rows1 r rows2 e s,
      locator_all p (page_state w) = (Ok (rows1 ++ r :: rows2), s) ->
      extract_row r = Raise e ->
      fst (scrape_keyword_data p w)
      = Ok (scrape_rows rows1 [] ++ scrape_rows rows2 []))
  /\ (forall (N : nat) (s1 : page),
        Z.of_nat N < max_attempts ->
        interactable_for p N (page_state w) = Some s1 ->
        control_raises p s1 = true ->
        fst (expand_keyword_table p w) = Z.of_nat N).
Proof.
  split.
  - intros rows1 r rows2 e s L E.
    rewrite (scrape_keyword_data_rows p w _ s L). simpl.
    rewrite flat_map_app. simpl. rewrite (emitted_raise r e E).
    rewrite !scrape_rows_emitted. reflexivity.
  - intros N s1 HN Hrun Hraise. unfold expand_keyword_table.
    destruct (expand_loop_interactable p N 0 w s1 ltac:(lia) Hrun) as (w1 & Hs & E).
    rewrite E. subst s1.
    destruct (attempt_raises p w1 Hraise) as (e & w' & A).
    rewrite (expand_loop_stops p (0 + Z.of_nat N) w1 _ _ ltac:(lia) A) by discriminate.
    reflexivity.
Qed.

Lemma transient_errors_recovered_witness :
  (extract_row (Ok [text_span "Go"; Raise (LibraryError "Element is not attached");
                    text_span "#7"])
   = Raise (LibraryError "Element is not attached")
   /\ fst (scrape_keyword_data (static_page (Ok flaky_rows)) (fresh tt))
      = Ok [ {| keyword := "Python"; appearances := 1200; rank := 3 |};
             {| keyword := "Java"; appearances := 47; rank := 12 |} ])
  /\ (interactable_for detaching_page 2 2%nat = Some 0%nat
      /\ control_raises detaching_page 0%nat = true
      /\ fst (expand_keyword_table detaching_page (fresh 2%nat)) = 2).
Proof.
  split.
  - split; [reflexivity|].
    destruct (transient_errors_recovered (static_page (Ok flaky_rows)) (fresh tt))
      as [H _].
    rewrite (H [Ok [text_span "Python"; text_span "1.2k"; text_span "#3"]]
               (Ok [text_span "Go"; Raise (LibraryError "Element is not attached");
                    text_span "#7"])
               [Ok [text_span "Java"; text_span "47"; text_span "12"]]
               (LibraryError "Element is not attached") tt eq_refl eq_refl).
    vm_compute. reflexivity.
  - split; [reflexivity|]. split; [reflexivity|].
    destruct (transient_errors_recovered detaching_page (fresh 2%nat)) as [_ H].
    exact (H 2%nat 0%nat eq_refl eq_refl eq_refl).
Defined.

(** ** Text Normalizer: signs *)

Lemma contains_lstrip_by (sp : ascii -> bool) (c : ascii) (s : string) :
  Py.contains c s = false -> Py.contains c (Py.lstrip_by sp s) = false.
Proof.
  induction s as [|d r IH]; simpl; [reflexivity|].
  intros H. apply orb_false_iff in H as [Hd Hr].
  destruct (sp d); simpl; [auto|]. now rewrite Hd, Hr.
Qed.

Lemma contains_rstrip_by (sp : ascii -> bool) (c : ascii) (s : string) :
  Py.contains c s = false -> Py.contains c (Py.rstrip_by sp s) = false.
Proof.
  induction s as [|d r IH]; simpl; [reflexivity|].
  intros H. apply orb_false_iff in H as [Hd Hr]. specialize (IH Hr).
  destruct (Py.rstrip_by sp r) as [|d' r'].
  - destruct (sp d); simpl; [reflexivity|]. now rewrite Hd.
  - change (Py.contains c (String d (String d' r')) = false).
    simpl. simpl in IH. now rewrite Hd, IH.
Qed.

Lemma contains_strip (c : ascii) (s : string) :
  Py.contains c s = false -> Py.contains c (Py.strip s) = false.
Proof.
  intros H. unfold Py.strip. now apply contains_lstrip_by, contains_rstrip_by.
Qed.

Lemma contains_remove_char (c k : ascii) (s : string) :
  Py.contains c s = false -> Py.contains c (Py.remove_char k s) = false.
Proof.
  induction s as [|d r IH]; simpl; [reflexivity|].
  intros H. apply orb_false_iff in H as [Hd Hr].
  destruct (Ascii.eqb d k); simpl; [auto|]. now rewrite Hd, IH.
Qed.

Lemma lower_char_minus (d : ascii) :
  Ascii.eqb (Py.lower_char d) "-" = Ascii.eqb d "-".
Proof.
  destruct d as [[] [] [] [] [] [] [] []]; reflexivity.
Qed.

Lemma contains_lower_minus (s : string) :
  Py.contains "-" (Py.lower s) = Py.contains "-" s.
Proof.
  induction s as [|d r IH]; simpl; [reflexivity|].
  now rewrite lower_char_minus, IH.
Qed.

Lemma contains_strip_underscores (c : ascii) (s : string) :
  forall prev s',
    Py.strip_underscores prev s = Some s' ->
    Py.contains c s = false -> Py.contains c s' = false.
Proof.
  induction s as [|d r IH]; simpl; intros prev s' E H.
  - destruct (Ascii.eqb prev "_"); [discriminate|]. now injection E as <-.
  - apply orb_false_iff in H as [Hd Hr].
    destruct (Ascii.eqb d "_").
    + destruct (Py.is_digit prev); [|discriminate]. eauto.
    + destruct (Ascii.eqb prev "_" && negb (Py.is_digit d)); [discriminate|].
      destruct (Py.strip_underscores d r) as [r'|] eqn:R; [|discriminate].
      injection E as <-. simpl. rewrite Hd. simpl. eauto.
Qed.

Lemma parse_sign_without_minus (s : string) :
  Py.contains "-" s = false -> fst (Py.parse_sign s) = false.
Proof.
  destruct s as [|d r]; [reflexivity|].
  destruct d as [[] [] [] [] [] [] [] []]; simpl; try reflexivity.
  discriminate.
Qed.

Lemma binary_round_aux_sign (sg : bool) (mx ex : Z) (lx : location) :
  match binary_round_aux Py.prec Py.emax sg mx ex lx with
  | S754_finite s _ _ => s = sg
  | _ => True
  end.
Proof.
  unfold binary_round_aux.
  destruct (shr_fexp _ _ mx ex lx) as [mrs' e'].
  destruct (shr_fexp _ _ _ e' loc_Exact) as [mrs'' e''].
  destruct (shr_m mrs''); auto.
  destruct (Z.leb _ _); auto.
Qed.

Lemma round_ratio_not_negative (num den : Z) :
  not_negative (Py.round_ratio false num den).
Proof.
  unfold Py.round_ratio.
  destruct (SFdiv_core_binary _ _ num 0 den 0) as [[q e] loc].
  pose proof (binary_round_aux_sign false q e loc) as H.
  destruct (binary_round_aux _ _ false q e loc) as [| | |s m e']; simpl; auto.
  subst s. exact I.
Qed.

Lemma parse_decimal_sign (s : string) (sg : bool) (ip fp : string) (e : Z) :
  Py.parse_decimal s = Some (sg, ip, fp, e) -> sg = fst (Py.parse_sign s).
Proof.
  unfold Py.parse_decimal.
  destruct (Py.parse_sign s) as [sg0 s1].
  destruct (Py.take_digits s1) as [ip0 s2].
  destruct (match s2 with String "." r => Py.take_digits r | _ => (EmptyString, s2) end)
    as [fp0 s3].
  destruct (Py.is_empty ip0 && Py.is_empty fp0); [discriminate|].
  destruct (_ || _); [discriminate|].
  destruct s3 as [|c r].
  - intros [= <- _ _ _]. reflexivity.
  - destruct (Ascii.eqb (Py.lower_char c) "e"); [|discriminate].
    destruct (Py.parse_sign r) as [esg r1].
    destruct (Py.take_digits r1) as [ed r2].
    destruct (negb (Py.is_empty ed) && Py.is_empty r2); [|discriminate].
    intros [= <- _ _ _]. reflexivity.
Qed.

Lemma parse_inf_nan_not_negative (s : string) (y : Py.float) :
  Py.parse_inf_nan s = Some y -> not_negative y.
Proof.
  unfold Py.parse_inf_nan. destruct (Py.parse_sign s) as [sg r].
  destruct (_ || _); [intros [= <-]; exact I|].
  destruct (String.eqb _ _); [intros [= <-]; exact I|discriminate].
Qed.

Lemma decimal_to_float_not_negative (ip fp : string) (e : Z) :
  not_negative (Py.decimal_to_float false ip fp e).
Proof.
  unfold Py.decimal_to_float.
  destruct (Py.digits_val (ip ++ fp) =? 0); [exact I|].
  apply round_ratio_not_negative.
Qed.

Lemma float_of_str_not_negative (s : string) (x : Py.float) :
  Py.contains "-" s = false ->
  Py.float_of_str s = Ok x ->
  not_negative x.
Proof.
  intros H. unfold Py.float_of_str.
  destruct (Py.strip_underscores "000" s) as [s1|] eqn:U; [|discriminate].
  pose proof (contains_strip_underscores "-" s _ _ U H) as H1.
  pose proof (contains_lstrip_by Py.is_num_space "-" _
                (contains_rstrip_by Py.is_num_space "-" _ H1)) as H2.
  apply parse_sign_without_minus in H2.
  destruct (Py.parse_decimal _) as [[[[sg ip] fp] e]|] eqn:P.
  - apply parse_decimal_sign in P. rewrite H2 in P. subst sg.
    intros [= <-]. apply decimal_to_float_not_negative.
  - destruct (Py.parse_inf_nan _) as [y|] eqn:Q; [|discriminate].
    intros [= <-]. exact (parse_inf_nan_not_negative _ _ Q).
Qed.

Lemma fmul_not_negative (x : Py.float) :
  not_negative x -> not_negative (Py.fmul x (Py.float_of_Z 1000)).
Proof.
  change (Py.float_of_Z 1000) with (S754_finite false 8796093022208000 (-43)).
  destruct x as [s|s| |s m e]; simpl; auto.
  destruct s; [contradiction|]. intros _. simpl.
  pose proof (binary_round_aux_sign false (Z.pos (m * 8796093022208000)) (e + -43) loc_Exact) as H.
  destruct (binary_round_aux _ _ _ _ _ _) as [| | |s m' e']; simpl; auto.
  subst s. exact I.
Qed.

Lemma int_of_float_not_negative (x : Py.float) (n : Z) :
  not_negative x -> Py.int_of_float x = Ok n -> 0 <= n.
Proof.
  destruct x as [s|s| |s m e]; simpl; try discriminate.
  - intros _ [= <-]. lia.
  - destruct s; [contradiction|]. intros _ [= <-].
    destruct (0 <=? e) eqn:E.
    + apply Z.shiftl_nonneg. lia.
    + apply Z.shiftr_nonneg. lia.
Qed.

Lemma clean_appearances_not_negative (text : string) :
  Py.contains "-" text = false -> 0 <= clean_appearances text.
Proof.
  intros H. unfold clean_appearances, clean_appearances_py, try_except.
  destruct (clean_appearances_body text) as [n|e] eqn:B; [|lia].
  revert B. unfold clean_appearances_body, bind.
  assert (L : Py.contains "-" (Py.lower (Py.strip text)) = false).
  { rewrite contains_lower_minus. now apply contains_strip. }
  destruct (Py.contains "k" _).
  - destruct (Py.float_of_str _) as [x|e] eqn:F; [|discriminate].
    apply float_of_str_not_negative in F; [|now apply contains_remove_char].
    intros B. exact (int_of_float_not_negative _ n (fmul_not_negative x F) B).
  - destruct (Py.float_of_str _) as [x|e] eqn:F; [|discriminate].
    apply float_of_str_not_negative in F; [|exact L].
    intros B. exact (int_of_float_not_negative x n F B).
Qed.

Lemma digit_val_nonneg (c : ascii) : Py.is_digit c = true -> 0 <= Py.digit_val c.
Proof.
  unfold Py.is_digit, Py.digit_val. cbv zeta. intros H.
  apply andb_true_iff in H as [H _]. apply N.leb_le in H. lia.
Qed.

Lemma digits_val_from_nonneg (s : string) :
  forall acc, 0 <= acc -> all_digits s = true -> 0 <= Py.digits_val_from acc s.
Proof.
  induction s as [|c r IH]; cbn [Py.digits_val_from all_digits];
    intros acc Hacc H; [exact Hacc|].
  apply andb_true_iff in H as [Hc Hr].
  apply IH; [|exact Hr]. pose proof (digit_val_nonneg c Hc). lia.
Qed.

Lemma scan_int_digits_all_digits (s : string) :
  forall prev d t, Py.scan_int_digits prev s = Some (d, t) -> all_digits d = true.
Proof.
  induction s as [|c r IH]; simpl; intros prev d t.
  - destruct (Ascii.eqb prev "_"); [discriminate|]. now intros [= <- _].
  - destruct (Ascii.eqb c "_").
    + destruct (Ascii.eqb prev "_"); [discriminate|]. apply IH.
    + destruct (Py.is_digit c) eqn:Dc.
      * destruct (Py.scan_int_digits c r) as [[d' t']|] eqn:R; [|discriminate].
        intros [= <- _]. simpl. rewrite Dc. exact (IH _ _ _ R).
      * destruct (Ascii.eqb prev "_"); [discriminate|]. now intros [= <- _].
Qed.

Lemma int_of_str_not_negative (s : string) (n : Z) :
  Py.contains "-" s = false -> Py.int_of_str s = Ok n -> 0 <= n.
Proof.
  intros H. unfold Py.int_of_str.
  pose proof (parse_sign_without_minus _ (contains_lstrip_by Py.is_num_space "-" s H)) as Hs.
  destruct (Py.parse_sign _) as [sg s1]. simpl in Hs. subst sg.
  assert (G : match Py.scan_int_digits "000" s1 with
              | None => Raise ValueError
              | Some (d, t) =>
                  if Py.is_empty d then Raise ValueError
                  else if negb (Py.is_empty (Py.lstrip_by Py.is_num_space t))
                       then Raise ValueError
                       else if Py.int_max_str_digits <? Py.len d then Raise ValueError
                            else Ok (Py.digits_val d)
              end = Ok n -> 0 <= n).
  { destruct (Py.scan_int_digits "000" s1) as [[d t]|] eqn:R; [|discriminate].
    destruct (Py.is_empty d); [discriminate|].
    destruct (negb _); [discriminate|].
    destruct (_ <? _); [discriminate|].
    intros [= <-]. apply digits_val_from_nonneg; [lia|].
    exact (scan_int_digits_all_digits _ _ _ _ R). }
  destruct s1 as [|c r]; [exact G|].
  destruct (Ascii.eqb c "_") eqn:E.
  - apply Ascii.eqb_eq in E. subst c. discriminate.
  - intros K. apply G. rewrite <- K.
    destruct c as [[] [] [] [] [] [] [] []]; try reflexivity. discriminate.
Qed.

Lemma clean_rank_not_negative (text : string) :
  Py.contains "-" text = false -> 0 <= clean_rank text.
Proof.
  intros H. unfold clean_rank, clean_rank_py, try_except, clean_rank_body.
  destruct (Py.int_of_str _) as [n|e] eqn:B; [|lia].
  apply (int_of_str_not_negative _ n) in B; [exact B|].
  now apply contains_remove_char, contains_strip.
Qed.

Lemma span_text_ok (spans : list span) (i : nat) (t : string) :
  span_text spans i = Ok t ->
  exists text, nth_error spans i = Some (Ok (Some text)) /\ t = Py.strip text.
Proof.
  unfold span_text. destruct (nth_error spans i) as [[[text|]|e]|]; simpl;
    try discriminate.
  intros [= <-]. eauto.
Qed.

Lemma emitted_not_negative (r : row) :
  row_without_minus r = true ->
  Forall (fun item => 0 <= appearances item /\ 0 <= rank item) (emitted r).
Proof.
  intros H. unfold emitted.
  destruct (extract_row r) as [[item|]|e] eqn:E; constructor; [|constructor].
  revert E. unfold extract_row, bind. destruct r as [spans|e]; [|discriminate].
  destruct (Z.of_nat (List.length spans) <? 3); [discriminate|].
  destruct (span_text spans 0) as [k|e]; [|discriminate].
  destruct (span_text spans 1) as [a|e] eqn:A; [|discriminate].
  destruct (span_text spans 2) as [b|e] eqn:B; [|discriminate].
  destruct (Py.is_empty k); [discriminate|]. intros [= <-]. simpl.
  apply span_text_ok in A as (ta & Na & ->).
  apply span_text_ok in B as (tb & Nb & ->).
  destruct spans as [|s0 [|s1 [|s2 rest]]]; try discriminate.
  simpl in Na, Nb. injection Na as ->. injection Nb as ->.
  simpl in H. apply andb_true_iff in H as [Ha Hb].
  apply negb_true_iff in Ha, Hb.
  split.
  - now apply clean_appearances_not_negative, contains_strip.
  - now apply clean_rank_not_negative, contains_strip.
Qed.

(** C4, as amended.  The appearances and the rank of every record are
    integers, and both are non-negative when no appearance or rank cell of
    the table contains a minus sign. *)
Theorem scrape_keyword_data_not_negative {page : Type} (p : Page page) (w : world page)
  (rows : list row) (s : page) :
  locator_all p (page_state w) = (Ok rows, s) ->
  forallb row_without_minus rows = true ->
  exists kd, fst (scrape_keyword_data p w) = Ok kd
             /\ Forall (fun item => 0 <= appearances item /\ 0 <= rank item) kd.
Proof.
  intros L H. rewrite (scrape_keyword_data_rows p w rows s L). simpl.
  eexists. split; [reflexivity|].
  clear L. induction rows as [|r rows IH]; simpl; [constructor|].
  simpl in H. apply andb_true_iff in H as [Hr Hrows].
  apply Forall_app. split; [now apply emitted_not_negative|auto].
Qed.

Lemma scrape_keyword_data_not_negative_witness :
  locator_all (static_page (Ok scenario_rows)) tt = (Ok scenario_rows, tt)
  /\ forallb row_without_minus scenario_rows = true
  /\ exists kd,
       fst (scrape_keyword_data (static_page (Ok scenario_rows)) (fresh tt)) = Ok kd
       /\ Forall (fun item => 0 <= appearances item /\ 0 <= rank item) kd.
Proof.
  split; [reflexivity|]. split; [reflexivity|].
  exact (scrape_keyword_data_not_negative (static_page (Ok scenario_rows)) (fresh tt)
           scenario_rows tt eq_refl eq_refl).
Defined.

(** C4, as stated, fails: a table cell with a minus sign gives a record
    with a negative appearances field and a negative rank field. *)
Lemma negative_fields_emitted :
  exists item,
    fst (scrape_keyword_data (static_page (Ok negative_rows)) (fresh tt)) = Ok [item]
    /\ appearances item < 0 /\ rank item < 0.
Proof.
  exists {| keyword := "Rocq"; appearances := -5; rank := -3 |}.
  split; [vm_compute; reflexivity|]. split; reflexivity.
Qed.

(** ** Text Normalizer: rank markers and thousands *)

Lemma remove_char_absent (c : ascii) (s : string) :
  Py.contains c s = false -> Py.remove_char c s = s.
Proof.
  induction s as [|d r IH]; simpl; [reflexivity|].
  intros H. apply orb_false_iff in H as [Hd Hr].
  rewrite Hd, (IH Hr). reflexivity.
Qed.

Lemma remove_leading_marker (s : string) :
  match s with
  | EmptyString => True
  | String _ r => Py.contains "#" r = false
  end ->
  Py.remove_char "#" s = match s with String "#" r => r | _ => s end.
Proof.
  destruct s as [|c r]; [reflexivity|]. intros H.
  cbn [Py.remove_char]. rewrite (remove_char_absent "#" r H).
  destruct (Ascii.eqb c "#") eqn:E.
  - apply Ascii.eqb_eq in E. subst c. reflexivity.
  - destruct c as [[] [] [] [] [] [] [] []]; try reflexivity. discriminate.
Qed.

(** C5, as amended.  [clean_rank] trims the text, removes every ['#'] of
    it, wherever it stands, and reads what is left as an integer, which it
    returns, or 0 when that fails.  It is the normaliser of the
    specification, which strips a leading marker only, on every text
    whose trimmed form has no marker after its first character; so
    ["#1"] gives 1, ["42"] gives 42, ["#"] and the empty text give 0. *)
Theorem clean_rank_removes_every_marker (text : string) :
  clean_rank text
  = match Py.int_of_str (Py.remove_char "#" (Py.strip text)) with
    | Ok n => n
    | Raise _ => 0
    end
  /\ (marker_only_leading text = true -> clean_rank text = normalize_rank text)
  /\ clean_rank "#1" = 1 /\ clean_rank "42" = 42
  /\ clean_rank "#" = 0 /\ clean_rank "" = 0.
Proof.
  split; [|split; [|repeat split]].
  - unfold clean_rank, clean_rank_py, try_except, clean_rank_body.
    destruct (Py.int_of_str _); reflexivity.
  - unfold marker_only_leading, clean_rank, clean_rank_py, try_except,
      clean_rank_body, normalize_rank.
    intros H. rewrite remove_leading_marker.
    + destruct (Py.int_of_str _); reflexivity.
    + destruct (Py.strip text); [exact I|]. now apply negb_true_iff in H.
Qed.

Lemma clean_rank_removes_every_marker_witness :
  marker_only_leading " #7 " = true
  /\ clean_rank " #7 " = normalize_rank " #7 ".
Proof.
  split; [reflexivity|].
  exact (proj1 (proj2 (clean_rank_removes_every_marker " #7 ")) eq_refl).
Defined.

(** C5, as stated, fails: a marker inside the text is removed too, and
    the digits around it are read as one number, where stripping a leading
    marker leaves a text that is not an integer. *)
Lemma clean_rank_inner_marker :
  clean_rank "1#2" = 12 /\ normalize_rank "1#2" = 0
  /\ clean_rank "1#2" <> normalize_rank "1#2".
Proof.
  split; [reflexivity|]. split; [reflexivity|]. discriminate.
Qed.

(** [clean_appearances] never raises. *)
Lemma clean_appearances_py_total (text : string) :
  clean_appearances_py text = Ok (clean_appearances text).
Proof.
  unfold clean_appearances, clean_appearances_py, try_except.
  destruct (clean_appearances_body text); reflexivity.
Qed.

Lemma clean_rank_py_total (text : string) :
  clean_rank_py text = Ok (clean_rank text).
Proof.
  unfold clean_rank, clean_rank_py, try_except.
  destruct (clean_rank_body text); reflexivity.
Qed.

(** The examples of the specification, on which the code and the
    specification agree. *)
Lemma clean_appearances_examples :
  clean_appearances "5" = 5 /\ clean_appearances "12.0" = 12
  /\ clean_appearances "1.2k" = 1200 /\ clean_appearances "n/a" = 0
  /\ normalize_count "5" = 5 /\ normalize_count "12.0" = 12
  /\ normalize_count "1.2k" = 1200 /\ normalize_count "n/a" = 0.
Proof.
  repeat split; vm_compute; reflexivity.
Qed.

(** C2.  On ["32.3k"] the code returns 32299: the double nearest to 32.3
    lies below it, its product with 1000 rounds to a double below 32300,
    and [int] truncates.  The specification asks for
    [truncate (32.3 * 1000) = 32300]. *)
Theorem clean_appearances_thousands_off_by_one :
  clean_appearances "32.3k" = 32299
  /\ normalize_count "32.3k" = 32300
  /\ Py.float_of_str "32.3" = Ok (S754_finite false 4545820873877094 (-47))
  /\ Py.fmul (S754_finite false 4545820873877094 (-47)) (Py.float_of_Z 1000)
     = S754_finite false 8878556394291199 (-38).
Proof.
  repeat split; vm_compute; reflexivity.
Qed.

(** ** Sheet Publisher *)

Lemma prepare_rows_map (date : string) (keywords_data : list KeywordRecord) :
  forall rows,
    prepare_rows date keywords_data rows = rows ++ map (sheet_row_of date) keywords_data.
Proof.
  induction keywords_data as [|item rest IH]; intros rows; simpl.
  - now rewrite app_nil_r.
  - rewrite IH, <- app_assoc. reflexivity.
Qed.

Lemma load_google_credentials_run (g : Sheets) (t : trace) :
  load_google_credentials g t =
  (if credentials_file_exists g then from_service_account_file g
   else Raise FileNotFoundError,
   t ++ CallPathExists CREDENTIALS_FILE ::
        if negb (credentials_file_exists g) then []
        else [CallFromServiceAccountFile CREDENTIALS_FILE]).
Proof.
  unfold load_google_credentials, tryM, bindM, request, raise.
  destruct (credentials_file_exists g); simpl.
  - rewrite <- app_assoc. destruct (from_service_account_file g) as [[]|e]; reflexivity.
  - reflexivity.
Qed.

Lemma verify_sheet_run (g : Sheets) (t : trace) :
  verify_sheet g t = (Ok (if sheet_ready g then None else Some false), t ++ [CallGet]).
Proof.
  unfold verify_sheet, sheet_ready, tryM, bindM, request, lift, ret.
  destruct (get_execute g) as [sheets|e]; [|reflexivity].
  destruct (sheet_titles sheets) as [names|e]; [|reflexivity].
  destruct (name_in SHEET_NAME names); reflexivity.
Qed.

Lemma append_rows_run (g : Sheets) (rows : list sheet_row) (t : trace) :
  append_rows g rows t =
  (Ok (is_ok (append_execute g rows)), t ++ [CallAppend append_range rows]).
Proof.
  unfold append_rows, tryM, bindM, request, ret.
  destruct (append_execute g rows) as [[]|e]; reflexivity.
Qed.

(** The publisher in closed form: it returns whether every step
    succeeded, after the calls of [sync_calls]. *)
Lemma sync_to_google_sheets_run (g : Sheets) (keywords_data : list KeywordRecord)
  (t : trace) :
  sync_to_google_sheets g keywords_data t =
  (Ok (publish_ok g keywords_data), t ++ sync_calls g keywords_data).
Proof.
  unfold sync_to_google_sheets, publish_ok, sync_calls, tryM.
  destruct (Py.is_empty (SPREADSHEET_ID g)); simpl;
    [now rewrite app_nil_r|].
  destruct keywords_data as [|item rest]; simpl; [now rewrite app_nil_r|].
  unfold bindM at 1. rewrite load_google_credentials_run.
  destruct (credentials_file_exists g); simpl; [|reflexivity].
  destruct (from_service_account_file g) as [[]|e]; simpl; [|reflexivity].
  unfold bindM at 1. unfold request at 1.
  destruct (build g) as [[]|e]; simpl;
    [|rewrite <- app_assoc; reflexivity].
  unfold bindM. rewrite verify_sheet_run.
  destruct (sheet_ready g); simpl.
  - rewrite append_rows_run, (prepare_rows_map (today g) rest).
    simpl. rewrite <- !app_assoc. reflexivity.
  - unfold ret. rewrite <- !app_assoc. reflexivity.
Qed.

(** C7.  Whenever the publisher makes the batch append, the rows it sends
    are one row [date, keyword, appearances, rank] per record, in the
    order of the records: as many rows as records, each with the date of
    the run in its first column, sent to the range [Raw_Data!A:D]. *)
Theorem append_sends_one_row_per_record (g : Sheets)
  (keywords_data : list KeywordRecord) (range : string) (values : list sheet_row) :
  In (CallAppend range values) (snd (sync_to_google_sheets g keywords_data [])) ->
  values = map (sheet_row_of (today g)) keywords_data
  /\ List.length values = List.length keywords_data
  /\ Forall (fun r => hd_error r = Some (CellText (today g))) values
  /\ range = "Raw_Data!A:D".
Proof.
  rewrite sync_to_google_sheets_run. simpl. unfold sync_calls.
  intros H.
  assert (E : CallAppend range values
              = CallAppend append_range (map (sheet_row_of (today g)) keywords_data)).
  { repeat match type of H with
           | In _ (if ?b then _ else _) => destruct b
           | In _ [] => contradiction
           | In _ (_ :: _) => destruct H as [H|H]; [try discriminate|]
           end; auto. }
  injection E as -> ->.
  split; [reflexivity|]. split; [apply length_map|]. split; [|reflexivity].
  apply Forall_forall. intros r Hr. apply in_map_iff in Hr as (item & <- & _).
  reflexivity.
Qed.

Lemma append_sends_one_row_per_record_witness :
  In (CallAppend "Raw_Data!A:D"
        [[CellText "2024-01-01"; CellText "Python"; CellInt 1200; CellInt 3];
         [CellText "2024-01-01"; CellText "Java"; CellInt 47; CellInt 12]])
     (snd (sync_to_google_sheets ready_sheets scenario_records []))
  /\ List.length
       [[CellText "2024-01-01"; CellText "Python"; CellInt 1200; CellInt 3];
        [CellText "2024-01-01"; CellText "Java"; CellInt 47; CellInt 12]]
     = List.length scenario_records.
Proof.
  assert (H : In (CallAppend "Raw_Data!A:D"
        [[CellText "2024-01-01"; CellText "Python"; CellInt 1200; CellInt 3];
         [CellText "2024-01-01"; CellText "Java"; CellInt 47; CellInt 12]])
     (snd (sync_to_google_sheets ready_sheets scenario_records []))).
  { simpl. right. right. right. right. left. reflexivity. }
  split; [exact H|].
  exact (proj1 (proj2 (append_sends_one_row_per_record ready_sheets scenario_records
                         _ _ H))).
Defined.

(** C8.  With the destination identifier unset, or with no record to
    publish, the publisher returns [False] without any call: no file
    test, no credential load, no service, no metadata fetch, no append. *)
Theorem sync_fails_fast (g : Sheets) (keywords_data : list KeywordRecord) (t : trace) :
  SPREADSHEET_ID g = "" \/ keywords_data = [] ->
  sync_to_google_sheets g keywords_data t = (Ok false, t).
Proof.
  intros H. rewrite sync_to_google_sheets_run. unfold publish_ok, sync_calls.
  destruct H as [-> | ->]; simpl.
  - now rewrite app_nil_r.
  - destruct (Py.is_empty (SPREADSHEET_ID g)); simpl; now rewrite app_nil_r.
Qed.

Lemma sync_fails_fast_witness :
  (SPREADSHEET_ID unset_sheets = "" \/ scenario_records = [])
  /\ (SPREADSHEET_ID ready_sheets = "" \/ @nil KeywordRecord = [])
  /\ sync_to_google_sheets unset_sheets scenario_records [] = (Ok false, [])
  /\ sync_to_google_sheets ready_sheets [] [] = (Ok false, []).
Proof.
  split; [left; reflexivity|]. split; [right; reflexivity|]. split.
  - exact (sync_fails_fast unset_sheets scenario_records [] (or_introl eq_refl)).
  - exact (sync_fails_fast ready_sheets [] [] (or_intror eq_refl)).
Defined.

(** C10.  For every input and every behaviour of its collaborators, the
    publisher returns a boolean and raises nothing; the boolean is [True]
    exactly when the identifier is set, the records are not empty, the
    credential file exists and loads, the service is built, the metadata
    lists the sheet, and the append succeeds. *)
Theorem sync_to_google_sheets_total (g : Sheets) (keywords_data : list KeywordRecord)
  (t : trace) :
  exists b t',
    sync_to_google_sheets g keywords_data t = (Ok b, t')
    /\ (b = true <->
        SPREADSHEET_ID g <> ""
        /\ keywords_data <> []
        /\ credentials_file_exists g = true
        /\ is_ok (from_service_account_file g) = true
        /\ is_ok (build g) = true
        /\ sheet_ready g = true
        /\ is_ok (append_execute g (map (sheet_row_of (today g)) keywords_data)) = true).
Proof.
  rewrite sync_to_google_sheets_run. eexists _, _. split; [reflexivity|].
  unfold publish_ok. rewrite !andb_true_iff, !negb_true_iff.
  assert (I1 : Py.is_empty (SPREADSHEET_ID g) = false <-> SPREADSHEET_ID g <> "").
  { destruct (SPREADSHEET_ID g); simpl; split; congruence. }
  assert (I2 : match keywords_data with [] => true | _ => false end = false
               <-> keywords_data <> []).
  { destruct keywords_data; split; congruence. }
  rewrite I1, I2. tauto.
Qed.

(** ** Run Orchestrator *)

Lemma main_body_run {page : Type} (b : Browser page) (p : Page page) (g : Sheets)
  (c : Console) :
  main_body b p g c =
  match scraped b p with
  | Ok (n, keywords_data) =>
      (_ <- print_summary c n (Z.of_nat (List.length keywords_data))
              (publish_ok g keywords_data) ;;
       Ok (if publish_ok g keywords_data then 0 else 1))%py
  | Raise e => Raise e
  end.
Proof.
  unfold main_body, scraped, bind.
  destruct (with_playwright b _) as [[n kd]|e]; [|reflexivity].
  rewrite sync_to_google_sheets_run. reflexivity.
Qed.

Lemma main_status {page : Type} (b : Browser page) (p : Page page) (g : Sheets)
  (c : Console) :
  main b p g c = match main_body b p g c with Ok status => status | Raise _ => 1 end.
Proof.
  unfold main, main_py, try_except, bind.
  destruct (main_body b p g c) as [status|e]; [reflexivity|].
  destruct (print_error c e); reflexivity.
Qed.

Lemma sync_result (g : Sheets) (keywords_data : list KeywordRecord) :
  fst (sync_to_google_sheets g keywords_data []) = Ok (publish_ok g keywords_data).
Proof.
  rewrite sync_to_google_sheets_run. reflexivity.
Qed.

Lemma publish_ok_nonempty (g : Sheets) (keywords_data : list KeywordRecord) :
  publish_ok g keywords_data = true -> keywords_data <> [].
Proof.
  unfold publish_ok. destruct keywords_data; [|discriminate].
  rewrite andb_false_r. discriminate.
Qed.

(** C9, as stated, fails: the summary is printed inside the [try] block,
    after the publisher returned.  On a console encoded in Latin-1 the
    check mark of the summary cannot be written, [print] raises, and the
    exit status is 1 although a non-empty batch was published. *)
Lemma published_batch_exit_one :
  scraped plain_browser (static_page (Ok scenario_rows)) = Ok (0, scenario_records)
  /\ scenario_records <> []
  /\ fst (sync_to_google_sheets ready_sheets scenario_records []) = Ok true
  /\ print_summary latin1_console 0 3 true = Raise UnicodeEncodeError
  /\ main plain_browser (static_page (Ok scenario_rows)) ready_sheets latin1_console = 1.
Proof.
  split; [vm_compute; reflexivity|]. split; [discriminate|].
  split; [reflexivity|]. split; vm_compute; reflexivity.
Qed.

(** C9, amended.  The exit status is 0 or 1.  It is 0 exactly when the
    browser session hands over a non-empty list of records, the publisher
    returns [True] on it, and the summary is then printed without an
    error.  When the session hands over an empty list, the run goes on to
    the publisher, which returns [False] on it, and the exit status is
    1. *)
Theorem main_exit_status {page : Type} (b : Browser page) (p : Page page) (g : Sheets)
  (c : Console) :
  (main b p g c = 0 \/ main b p g c = 1)
  /\ (main b p g c = 0 <->
      exists n keywords_data,
        scraped b p = Ok (n, keywords_data)
        /\ keywords_data <> []
        /\ fst (sync_to_google_sheets g keywords_data []) = Ok true
        /\ print_summary c n (Z.of_nat (List.length keywords_data)) true = Ok tt)
  /\ (forall n, scraped b p = Ok (n, []) ->
        fst (sync_to_google_sheets g [] []) = Ok false /\ main b p g c = 1).
Proof.
  rewrite main_status, main_body_run.
  destruct (scraped b p) as [[n kd]|e] eqn:S.
  - destruct (publish_ok g kd) eqn:P.
    + destruct (print_summary c n (Z.of_nat (List.length kd)) true) as [[]|e] eqn:W;
        cbn [bind].
      * split; [left; reflexivity|]. split.
        -- split; [|reflexivity]. intros _. exists n, kd.
           split; [reflexivity|]. split; [exact (publish_ok_nonempty g kd P)|].
           split; [|exact W]. rewrite sync_result, P. reflexivity.
        -- intros n' [= _ ->]. exfalso. exact (publish_ok_nonempty g [] P eq_refl).
      * split; [right; reflexivity|]. split.
        -- split; [discriminate|]. intros (n' & kd' & [= <- <-] & _ & _ & H).
           rewrite W in H. discriminate.
        -- intros n' [= _ ->]. exfalso. exact (publish_ok_nonempty g [] P eq_refl).
    + assert (R : match (_ <- print_summary c n (Z.of_nat (List.length kd)) false ;;
                         Ok (if false then 0 else 1))%py
                  with Ok status => status | Raise _ => 1 end = 1)
        by (destruct (print_summary c n _ false); reflexivity).
      rewrite R. split; [right; reflexivity|]. split.
      * split; [discriminate|]. intros (n' & kd' & [= _ <-] & _ & H & _).
        rewrite sync_result, P in H. discriminate.
      * intros n' [= _ ->]. split; [|reflexivity].
        rewrite sync_result, P. reflexivity.
  - split; [right; reflexivity|]. split.
    + split; [discriminate|]. intros (n' & kd' & H & _). discriminate.
    + intros n' H. discriminate.
Qed.

Lemma main_exit_status_witness :
  scraped plain_browser (static_page (Ok [])) = Ok (0, [])
  /\ main plain_browser (static_page (Ok [])) ready_sheets plain_console = 1
  /\ main plain_browser (static_page (Ok scenario_rows)) ready_sheets plain_console = 0.
Proof.
  split; [reflexivity|]. split.
  - destruct (main_exit_status plain_browser (static_page (Ok [])) ready_sheets
                plain_console) as (_ & _ & H).
    exact (proj2 (H 0 eq_refl)).
  - destruct (main_exit_status plain_browser (static_page (Ok scenario_rows))
                ready_sheets plain_console) as (_ & H & _).
    apply (proj2 H). exists 0, scenario_records.
    split; [vm_compute; reflexivity|]. split; [discriminate|].
    split; reflexivity.
Defined.

(* ================================================================== *)
(** * Further properties of the publisher *)
(* ================================================================== *)

Lemma name_in_In (name : string) (names : list string) :
  name_in name names = true <-> In name names.
Proof.
  unfold name_in. rewrite existsb_exists. split.
  - intros (x & Hx & E). apply String.eqb_eq in E. now subst x.
  - intros H. exists name. split; [exact H|apply String.eqb_refl].
Qed.

Lemma sheet_titles_missing (sheets : list (option string)) :
  In None sheets -> sheet_titles sheets = Raise KeyError.
Proof.
  induction sheets as [|[title|] rest IH]; simpl; intros H.
  - contradiction.
  - destruct H as [H|H]; [discriminate|]. now rewrite (IH H).
  - reflexivity.
Qed.

Lemma sheet_ready_listed (g : Sheets) :
  sheet_ready g = true <->
  exists sheets names,
    get_execute g = Ok sheets /\ sheet_titles sheets = Ok names
    /\ In SHEET_NAME names.
Proof.
  unfold sheet_ready. split.
  - destruct (get_execute g) as [sheets|e]; [|discriminate].
    destruct (sheet_titles sheets) as [names|e] eqn:T; [|discriminate].
    intros H. exists sheets, names. apply name_in_In in H.
    split; [reflexivity|]. split; [exact T|exact H].
  - intros (sheets & names & -> & -> & H). now apply name_in_In.
Qed.

(** X1.  With the identifier set and records to publish, a missing
    credential file makes the publisher return [False] after the file
    test alone, and a credential file that does not load makes it return
    [False] after the file test and the load: in both cases no service is
    built and no request is sent. *)
Theorem sync_without_credentials (g : Sheets) (keywords_data : list KeywordRecord)
  (t : trace) :
  SPREADSHEET_ID g <> "" ->
  keywords_data <> [] ->
  (credentials_file_exists g = false ->
   sync_to_google_sheets g keywords_data t
   = (Ok false, t ++ [CallPathExists "credentials.json"]))
  /\ (forall e,
        credentials_file_exists g = true ->
        from_service_account_file g = Raise e ->
        sync_to_google_sheets g keywords_data t
        = (Ok false, t ++ [CallPathExists "credentials.json";
                           CallFromServiceAccountFile "credentials.json"])).
Proof.
  intros Hid Hkd. rewrite sync_to_google_sheets_run.
  unfold publish_ok, sync_calls.
  destruct (SPREADSHEET_ID g) as [|c r]; [congruence|].
  destruct keywords_data as [|item rest]; [congruence|]. simpl.
  split.
  - intros ->. reflexivity.
  - intros e -> ->. reflexivity.
Qed.

Lemma sync_without_credentials_witness :
  SPREADSHEET_ID uncredentialed_sheets <> ""
  /\ scenario_records <> []
  /\ credentials_file_exists uncredentialed_sheets = false
  /\ sync_to_google_sheets uncredentialed_sheets scenario_records []
     = (Ok false, [CallPathExists "credentials.json"]).
Proof.
  split; [discriminate|]. split; [discriminate|]. split; [reflexivity|].
  refine (proj1 (sync_without_credentials uncredentialed_sheets scenario_records []
                   _ _) eq_refl); discriminate.
Defined.

(** X2.  The batch append is only ever sent after the credentials were
    loaded, the service was built, and the metadata of the destination
    was read and listed a sheet whose title is exactly [Raw_Data]. *)
Theorem append_only_after_verification (g : Sheets)
  (keywords_data : list KeywordRecord) (range : string) (values : list sheet_row) :
  In (CallAppend range values) (snd (sync_to_google_sheets g keywords_data [])) ->
  credentials_file_exists g = true
  /\ from_service_account_file g = Ok tt
  /\ build g = Ok tt
  /\ exists sheets names,
       get_execute g = Ok sheets /\ sheet_titles sheets = Ok names
       /\ In "Raw_Data" names.
Proof.
  rewrite sync_to_google_sheets_run. simpl. unfold sync_calls.
  destruct (Py.is_empty (SPREADSHEET_ID g)); [contradiction|].
  destruct keywords_data as [|item rest]; [contradiction|].
  destruct (credentials_file_exists g); simpl;
    [|intros [H|[]]; discriminate].
  destruct (from_service_account_file g) as [[]|e]; simpl;
    [|intros [H|[H|[]]]; discriminate].
  destruct (build g) as [[]|e]; simpl;
    [|intros [H|[H|[H|[]]]]; discriminate].
  destruct (sheet_ready g) eqn:R; simpl;
    [|intros [H|[H|[H|[H|[]]]]]; discriminate].
  intros _. repeat split; auto. now apply sheet_ready_listed.
Qed.

Lemma append_only_after_verification_witness :
  In (CallAppend "Raw_Data!A:D" (map (sheet_row_of "2024-01-01") scenario_records))
     (snd (sync_to_google_sheets ready_sheets scenario_records []))
  /\ credentials_file_exists ready_sheets = true.
Proof.
  assert (H : In (CallAppend "Raw_Data!A:D"
                    (map (sheet_row_of "2024-01-01") scenario_records))
                 (snd (sync_to_google_sheets ready_sheets scenario_records []))).
  { simpl. right. right. right. right. left. reflexivity. }
  split; [exact H|].
  exact (proj1 (append_only_after_verification ready_sheets scenario_records _ _ H)).
Defined.

(** X3.  The file and network calls of a publish are always a prefix of
    one fixed sequence: file test, credential load, service build,
    metadata fetch, batch append.  So there is at most one append, never
    followed by another call, and a publish that returns [True] has made
    all five calls. *)
Theorem sync_call_sequence (g : Sheets) (keywords_data : list KeywordRecord)
  (t : trace) :
  let full := [CallPathExists "credentials.json";
               CallFromServiceAccountFile "credentials.json";
               CallBuild; CallGet;
               CallAppend "Raw_Data!A:D"
                 (map (sheet_row_of (today g)) keywords_data)] in
  (exists n, (n <= 5)%nat
             /\ snd (sync_to_google_sheets g keywords_data t) = t ++ firstn n full)
  /\ (fst (sync_to_google_sheets g keywords_data t) = Ok true ->
      snd (sync_to_google_sheets g keywords_data t) = t ++ full).
Proof.
  intros full. rewrite sync_to_google_sheets_run. simpl.
  unfold publish_ok, sync_calls.
  destruct (Py.is_empty (SPREADSHEET_ID g)); simpl;
    [split; [exists 0%nat; split; [lia|reflexivity]|discriminate]|].
  destruct keywords_data as [|item rest]; simpl;
    [split; [exists 0%nat; split; [lia|reflexivity]|discriminate]|].
  destruct (credentials_file_exists g); simpl;
    [|split; [exists 1%nat; split; [lia|reflexivity]|discriminate]].
  destruct (from_service_account_file g) as [[]|e]; simpl;
    [|split; [exists 2%nat; split; [lia|reflexivity]|discriminate]].
  destruct (build g) as [[]|e]; simpl;
    [|split; [exists 3%nat; split; [lia|reflexivity]|discriminate]].
  destruct (sheet_ready g); simpl;
    [|split; [exists 4%nat; split; [lia|reflexivity]|discriminate]].
  split; [exists 5%nat; split; [lia|reflexivity]|reflexivity].
Qed.

Lemma sync_call_sequence_witness :
  fst (sync_to_google_sheets ready_sheets scenario_records []) = Ok true
  /\ snd (sync_to_google_sheets ready_sheets scenario_records [])
     = [CallPathExists "credentials.json";
        CallFromServiceAccountFile "credentials.json";
        CallBuild; CallGet;
        CallAppend "Raw_Data!A:D"
          (map (sheet_row_of "2024-01-01") scenario_records)].
Proof.
  split; [reflexivity|].
  exact (proj2 (sync_call_sequence ready_sheets scenario_records []) eq_refl).
Defined.

(** X4.  One sheet of the metadata without a title makes the
    verification fail, whatever the other sheets are called: the
    publisher returns [False] after the metadata fetch and sends no
    append, even when a sheet named [Raw_Data] is listed. *)
Theorem sync_untitled_sheet (g : Sheets) (keywords_data : list KeywordRecord)
  (sheets : list (option string)) (t : trace) :
  SPREADSHEET_ID g <> "" ->
  keywords_data <> [] ->
  credentials_file_exists g = true ->
  from_service_account_file g = Ok tt ->
  build g = Ok tt ->
  get_execute g = Ok sheets ->
  In None sheets ->
  sync_to_google_sheets g keywords_data t
  = (Ok false, t ++ [CallPathExists "credentials.json";
                     CallFromServiceAccountFile "credentials.json";
                     CallBuild; CallGet]).
Proof.
  intros Hid Hkd Hc Hf Hb Hg Hn. rewrite sync_to_google_sheets_run.
  unfold publish_ok, sync_calls, sheet_ready.
  rewrite Hc, Hf, Hb, Hg, (sheet_titles_missing sheets Hn).
  destruct (SPREADSHEET_ID g) as [|c r]; [congruence|].
  destruct keywords_data as [|item rest]; [congruence|]. reflexivity.
Qed.

Lemma sync_untitled_sheet_witness :
  In None [Some "Raw_Data"; None]
  /\ sync_to_google_sheets untitled_sheets scenario_records []
     = (Ok false, [CallPathExists "credentials.json";
                   CallFromServiceAccountFile "credentials.json";
                   CallBuild; CallGet]).
Proof.
  assert (H : In None [Some "Raw_Data"; @None string]) by (right; left; reflexivity).
  split; [exact H|].
  refine (sync_untitled_sheet untitled_sheets scenario_records
            [Some "Raw_Data"; None] [] _ _ eq_refl eq_refl eq_refl eq_refl H);
    discriminate.
Defined.

(* ================================================================== *)
(** * Further properties of the extractor and the normalisers *)
(* ================================================================== *)

Lemma rstrip_by_cons (sp : ascii -> bool) (c : ascii) (r : string) :
  Py.rstrip_by sp (String c r) =
  match Py.rstrip_by sp r with
  | EmptyString => if sp c then EmptyString else String c EmptyString
  | String d r' => String c (String d r')
  end.
Proof. reflexivity. Qed.

Lemma rstrip_by_idempotent (sp : ascii -> bool) (s : string) :
  Py.rstrip_by sp (Py.rstrip_by sp s) = Py.rstrip_by sp s.
Proof.
  induction s as [|c r IH]; [reflexivity|].
  rewrite rstrip_by_cons. destruct (Py.rstrip_by sp r) as [|d r'] eqn:R.
  - destruct (sp c) eqn:C; [reflexivity|]. rewrite rstrip_by_cons. simpl.
    now rewrite C.
  - rewrite rstrip_by_cons, IH. reflexivity.
Qed.

Lemma lstrip_by_idempotent (sp : ascii -> bool) (s : string) :
  Py.lstrip_by sp (Py.lstrip_by sp s) = Py.lstrip_by sp s.
Proof.
  induction s as [|c r IH]; [reflexivity|].
  cbn [Py.lstrip_by]. destruct (sp c) eqn:C; [exact IH|].
  cbn [Py.lstrip_by]. now rewrite C.
Qed.

Lemma rstrip_by_tail (sp : ascii -> bool) (c : ascii) (r : string) :
  Py.rstrip_by sp (String c r) = String c r -> Py.rstrip_by sp r = r.
Proof.
  rewrite rstrip_by_cons. destruct (Py.rstrip_by sp r) as [|d r'].
  - destruct (sp c); [discriminate|]. now intros [= <-].
  - now intros [= <-].
Qed.

Lemma rstrip_by_lstrip_by (sp : ascii -> bool) (s : string) :
  Py.rstrip_by sp s = s ->
  Py.rstrip_by sp (Py.lstrip_by sp s) = Py.lstrip_by sp s.
Proof.
  induction s as [|c r IH]; [reflexivity|]. intros H.
  cbn [Py.lstrip_by]. destruct (sp c); [|exact H].
  apply IH. exact (rstrip_by_tail sp c r H).
Qed.

Lemma strip_idempotent (s : string) : Py.strip (Py.strip s) = Py.strip s.
Proof.
  unfold Py.strip.
  rewrite (rstrip_by_lstrip_by Py.is_space _ (rstrip_by_idempotent Py.is_space s)).
  apply lstrip_by_idempotent.
Qed.

Lemma extract_row_fields (r : row) (item : KeywordRecord) :
  extract_row r = Ok (Some item) ->
  exists spans k a b,
    r = Ok spans
    /\ nth_error spans 0 = Some (Ok (Some k))
    /\ nth_error spans 1 = Some (Ok (Some a))
    /\ nth_error spans 2 = Some (Ok (Some b))
    /\ keyword item = Py.strip k
    /\ appearances item = clean_appearances (Py.strip a)
    /\ rank item = clean_rank (Py.strip b).
Proof.
  unfold extract_row, bind. destruct r as [spans|e]; [|discriminate].
  destruct (Z.of_nat (List.length spans) <? 3); [discriminate|].
  destruct (span_text spans 0) as [k|e] eqn:K; [|discriminate].
  destruct (span_text spans 1) as [a|e] eqn:A; [|discriminate].
  destruct (span_text spans 2) as [b|e] eqn:B; [|discriminate].
  destruct (Py.is_empty k); [discriminate|]. intros [= <-]. simpl.
  apply span_text_ok in K as (tk & Nk & ->).
  apply span_text_ok in A as (ta & Na & ->).
  apply span_text_ok in B as (tb & Nb & ->).
  exists spans, tk, ta, tb. repeat split; assumption.
Qed.

(** X5.  A row is read through its first three spans only: the spans
    after the third are never queried, so they change nothing, whatever
    they hold or raise. *)
Theorem emitted_first_three_spans (a b c : span) (rest : list span) :
  emitted (Ok (a :: b :: c :: rest)) = emitted (Ok [a; b; c]).
Proof.
  unfold emitted, extract_row, bind.
  replace (Z.of_nat (List.length (a :: b :: c :: rest)) <? 3) with false
    by (symmetry; apply Z.ltb_ge; simpl List.length; lia).
  reflexivity.
Qed.

(** X6.  The extractor invents nothing: when the row selector answers
    [rows], it returns at most one record per row, and every record comes
    from a row of [rows] whose first three spans gave texts, of which it
    holds the trimmed first, the appearances read from the second and the
    rank read from the third. *)
Theorem scrape_keyword_data_provenance {page : Type} (p : Page page) (w : world page)
  (rows : list row) (s : page) :
  locator_all p (page_state w) = (Ok rows, s) ->
  exists kd,
    fst (scrape_keyword_data p w) = Ok kd
    /\ (List.length kd <= List.length rows)%nat
    /\ forall item, In item kd ->
         exists spans k a b,
           In (Ok spans) rows
           /\ nth_error spans 0 = Some (Ok (Some k))
           /\ nth_error spans 1 = Some (Ok (Some a))
           /\ nth_error spans 2 = Some (Ok (Some b))
           /\ keyword item = Py.strip k
           /\ appearances item = clean_appearances (Py.strip a)
           /\ rank item = clean_rank (Py.strip b).
Proof.
  intros L. rewrite (scrape_keyword_data_rows p w rows s L). simpl.
  eexists. split; [reflexivity|]. clear L. split.
  - induction rows as [|r rows IH]; simpl; [lia|].
    rewrite length_app. unfold emitted at 1.
    destruct (extract_row r) as [[item|]|e]; simpl; lia.
  - intros item H. apply in_flat_map in H as (r & Hr & Hi).
    unfold emitted in Hi. destruct (extract_row r) as [[item'|]|e] eqn:E;
      simpl in Hi; try contradiction.
    destruct Hi as [<-|[]].
    destruct (extract_row_fields r item' E) as (spans & k & a & b & -> & H).
    exists spans, k, a, b. split; [exact Hr|exact H].
Qed.

Lemma scrape_keyword_data_provenance_witness :
  locator_all (static_page (Ok scenario_rows)) tt = (Ok scenario_rows, tt)
  /\ exists kd,
       fst (scrape_keyword_data (static_page (Ok scenario_rows)) (fresh tt)) = Ok kd
       /\ (List.length kd <= 4)%nat.
Proof.
  split; [reflexivity|].
  destruct (scrape_keyword_data_provenance (static_page (Ok scenario_rows)) (fresh tt)
              scenario_rows tt eq_refl) as (kd & E & Hlen & _).
  exists kd. split; [exact E|exact Hlen].
Defined.

(** X7.  The keyword of every emitted record is trimmed: it is not empty
    and stripping it again changes nothing, so it neither starts nor ends
    with whitespace. *)
Theorem emitted_keyword_trimmed (r : row) (item : KeywordRecord) :
  In item (emitted r) ->
  keyword item <> "" /\ Py.strip (keyword item) = keyword item.
Proof.
  unfold emitted. destruct (extract_row r) as [[item'|]|e] eqn:E; simpl;
    try contradiction.
  intros [<-|[]]. split; [exact (extract_row_keyword r item' E)|].
  destruct (extract_row_fields r item' E) as (spans & k & a & b & _ & _ & _ & _ & -> & _).
  apply strip_idempotent.
Qed.

Lemma emitted_keyword_trimmed_witness :
  In {| keyword := "Python"; appearances := 1200; rank := 3 |}
     (emitted (Ok [text_span "  Python "; text_span "1.2k"; text_span "#3"]))
  /\ Py.strip "Python" = "Python".
Proof.
  assert (H : In {| keyword := "Python"; appearances := 1200; rank := 3 |}
     (emitted (Ok [text_span "  Python "; text_span "1.2k"; text_span "#3"])))
    by (vm_compute; left; reflexivity).
  split; [exact H|].
  exact (proj2 (emitted_keyword_trimmed _ _ H)).
Defined.

Lemma lower_char_idempotent (c : ascii) :
  Py.lower_char (Py.lower_char c) = Py.lower_char c.
Proof.
  destruct c as [[] [] [] [] [] [] [] []]; reflexivity.
Qed.

Lemma is_space_lower_char (c : ascii) :
  Py.is_space (Py.lower_char c) = Py.is_space c.
Proof.
  destruct c as [[] [] [] [] [] [] [] []]; reflexivity.
Qed.

Lemma lower_idempotent (s : string) : Py.lower (Py.lower s) = Py.lower s.
Proof.
  induction s as [|c r IH]; simpl; [reflexivity|].
  now rewrite lower_char_idempotent, IH.
Qed.

Lemma lstrip_lower (s : string) :
  Py.lstrip_by Py.is_space (Py.lower s) = Py.lower (Py.lstrip_by Py.is_space s).
Proof.
  induction s as [|c r IH]; [reflexivity|].
  cbn [Py.lower Py.lstrip_by]. rewrite is_space_lower_char.
  destruct (Py.is_space c); [exact IH|reflexivity].
Qed.

Lemma rstrip_lower (s : string) :
  Py.rstrip_by Py.is_space (Py.lower s) = Py.lower (Py.rstrip_by Py.is_space s).
Proof.
  induction s as [|c r IH]; [reflexivity|].
  cbn [Py.lower]. rewrite !rstrip_by_cons, IH, is_space_lower_char.
  destruct (Py.rstrip_by Py.is_space r) as [|d r']; cbn [Py.lower].
  - destruct (Py.is_space c); reflexivity.
  - reflexivity.
Qed.

Lemma strip_lower (s : string) : Py.strip (Py.lower s) = Py.lower (Py.strip s).
Proof.
  unfold Py.strip. now rewrite rstrip_lower, lstrip_lower.
Qed.

(** X8.  Both normalisers trim their argument themselves: they give the
    same result on a text and on the text already trimmed, so the trimming
    done by the extractor before it calls them changes nothing. *)
Theorem normalisers_ignore_outer_whitespace (text : string) :
  clean_appearances (Py.strip text) = clean_appearances text
  /\ clean_rank (Py.strip text) = clean_rank text.
Proof.
  unfold clean_appearances, clean_appearances_py, clean_appearances_body,
    clean_rank, clean_rank_py, clean_rank_body.
  rewrite strip_idempotent. split; reflexivity.
Qed.

(** X9.  [clean_appearances] does not depend on letter case: a text and
    its lower-cased form give the same count, so [K] is a thousands marker
    like [k], and [E] an exponent mark like [e]. *)
Theorem clean_appearances_ignores_case (text : string) :
  clean_appearances (Py.lower text) = clean_appearances text.
Proof.
  unfold clean_appearances, clean_appearances_py, clean_appearances_body.
  rewrite strip_lower, lower_idempotent. reflexivity.
Qed.

(** X10.  A control that can be activated 100 times in a row is activated
    exactly 100 times: [expand_keyword_table] returns 100 and leaves the
    page in the state reached by the hundredth activation, without
    probing the control once more. *)
Theorem expand_keyword_table_cap_reached {page : Type} (p : Page page)
  (w : world page) (s' : page) :
  interactable_for p 100 (page_state w) = Some s' ->
  fst (expand_keyword_table p w) = 100
  /\ page_state (snd (expand_keyword_table p w)) = s'.
Proof.
  intros H. unfold expand_keyword_table.
  destruct (expand_loop_interactable p 100 0 w s') as (w' & Hs & E);
    [unfold max_attempts; lia|exact H|].
  rewrite E, expand_loop_step. change (0 + Z.of_nat 100) with 100.
  change (100 <? max_attempts) with false. simpl. split; [reflexivity|exact Hs].
Qed.

Lemma expand_keyword_table_cap_reached_witness :
  interactable_for countdown_page 100 250%nat = Some 150%nat
  /\ fst (expand_keyword_table countdown_page (fresh 250%nat)) = 100
  /\ page_state (snd (expand_keyword_table countdown_page (fresh 250%nat))) = 150%nat.
Proof.
  assert (H : interactable_for countdown_page 100 250%nat = Some 150%nat)
    by (vm_compute; reflexivity).
  split; [exact H|].
  exact (expand_keyword_table_cap_reached countdown_page (fresh 250%nat) 150%nat H).
Defined.

(* ================================================================== *)
(** * Further properties of the reveal loop *)
(* ================================================================== *)

Lemma clicks_app (l1 l2 : list page_call) : clicks (l1 ++ l2) = clicks l1 + clicks l2.
Proof.
  unfold clicks. rewrite filter_app, length_app. lia.
Qed.

Lemma attempt_calls {page : Type} (p : Page page) (w : world page) :
  exists extra,
    page_calls (snd (expansion_attempt p w)) = page_calls w ++ extra
    /\ forallb is_reveal_call extra = true
    /\ 0 <= clicks extra <= 1
    /\ (fst (expansion_attempt p w) = Ok LoopNext -> clicks extra = 1).
Proof.
  unfold expansion_attempt, bindM, perform, ret. simpl.
  destruct (locator_first p (page_state w)) as [[[]|e] s1]; simpl;
    [|exists [CallLocator]; repeat split; try reflexivity;
      try (unfold clicks; simpl; lia); discriminate].
  destruct (is_visible p s1) as [[[|]|e] s2]; simpl;
    [| exists [CallLocator; CallIsVisible]; rewrite <- app_assoc;
       repeat split; try reflexivity; try (unfold clicks; simpl; lia); discriminate
     | exists [CallLocator; CallIsVisible]; rewrite <- app_assoc;
       repeat split; try reflexivity; try (unfold clicks; simpl; lia); discriminate].
  destruct (click p s2) as [[[]|e] s3]; simpl;
    [| exists [CallLocator; CallIsVisible; CallClick]; rewrite <- !app_assoc;
       repeat split; try reflexivity; try (unfold clicks; simpl; lia); discriminate].
  destruct (wait_for_timeout p 2000 s3) as [[[]|e] s4]; simpl;
    exists [CallLocator; CallIsVisible; CallClick; CallWait 2000];
    rewrite <- !app_assoc;
    repeat split; try reflexivity; try (unfold clicks; simpl; lia); discriminate.
Qed.

Lemma iteration_calls {page : Type} (p : Page page) (w w' : world page)
  (r : outcome loop_control) :
  expansion_iteration p w = (r, w') ->
  exists extra,
    page_calls w' = page_calls w ++ extra
    /\ forallb is_reveal_call extra = true
    /\ 0 <= clicks extra <= 1
    /\ (r = Ok LoopNext -> clicks extra = 1).
Proof.
  destruct (attempt_calls p w) as (extra & E & F & B & N).
  destruct (expansion_attempt p w) as [r0 w0] eqn:A.
  rewrite (iteration_of_attempt p w w0 r0 A). intros [= <- <-].
  exists extra. simpl in E, N. repeat split; try tauto; try lia.
  intros H. apply N. destruct r0 as [[|]|e]; congruence.
Qed.

Lemma expand_loop_calls {page : Type} (p : Page page) (c : Z) (w : world page) :
  exists extra,
    page_calls (snd (expand_loop p c w)) = page_calls w ++ extra
    /\ forallb is_reveal_call extra = true
    /\ fst (expand_loop p c w) - c <= clicks extra <= fst (expand_loop p c w) - c + 1.
Proof.
  funelim (expand_loop p c w); simpl.
  - exists []. rewrite app_nil_r. repeat split; unfold clicks; simpl; lia.
  - match goal with IH : exists _, _ |- _ => destruct IH as (extra' & E' & F' & B') end.
    match goal with A : expansion_iteration _ _ = _ |- _ =>
      destruct (iteration_calls p _ _ _ A) as (extra & E & F & B & N) end.
    exists (extra ++ extra'). rewrite E', E, <- app_assoc, forallb_app, clicks_app.
    rewrite F, F', (N eq_refl). repeat split; lia.
  - match goal with A : expansion_iteration _ _ = _ |- _ =>
      destruct (iteration_calls p _ _ _ A) as (extra & E & F & B & N) end.
    exists extra. repeat split; try assumption; lia.
  - match goal with A : expansion_iteration _ _ = _ |- _ =>
      destruct (iteration_calls p _ _ _ A) as (extra & E & F & B & N) end.
    exists extra. repeat split; try assumption; lia.
Qed.

(** X11.  The calls [expand_keyword_table] makes on the page are probes
    of the control, clicks and settle delays of 2000 ms, added after the
    calls made before; the number of clicks is the returned count, or one
    more when the last click or its settle delay raised, so the count
    never overstates the clicks and understates them by one at most. *)
Theorem expand_keyword_table_clicks {page : Type} (p : Page page) (w : world page) :
  exists extra,
    page_calls (snd (expand_keyword_table p w)) = page_calls w ++ extra
    /\ forallb is_reveal_call extra = true
    /\ fst (expand_keyword_table p w) <= clicks extra
        <= fst (expand_keyword_table p w) + 1.
Proof.
  unfold expand_keyword_table.
  destruct (expand_loop_calls p 0 w) as (extra & E & F & B).
  exists extra. repeat split; try assumption; lia.
Qed.

(* ================================================================== *)
(** * Further properties of the orchestrator *)
(* ================================================================== *)

(** X12.  A session file that is absent, that cannot be read or parsed,
    or that holds an empty value never stops the run: the browser context
    is created without [storage_state], and the session proceeds as one
    without saved session. *)
Theorem session_errors_recovered {page : Type} (b : Browser page) (p : Page page) :
  auth_file_exists b = false
  \/ (exists e, read_auth_file b = Raise e)
  \/ (exists v, read_auth_file b = Ok v /\ json_truthy v = false) ->
  storage_state (load_auth_storage b) = None
  /\ scraped b p = with_playwright b (browser_session b p None).
Proof.
  intros H.
  assert (S : storage_state (load_auth_storage b) = None).
  { unfold load_auth_storage, try_except, bind.
    destruct H as [->|[(e & ->)|(v & -> & F)]].
    - reflexivity.
    - destruct (auth_file_exists b); reflexivity.
    - destruct (auth_file_exists b); simpl; [now rewrite F|reflexivity]. }
  split; [exact S|].
  unfold scraped, browser_session. rewrite S. reflexivity.
Qed.

Lemma session_errors_recovered_witness :
  (exists e, read_auth_file corrupt_session_browser = Raise e)
  /\ storage_state (load_auth_storage corrupt_session_browser) = None
  /\ main corrupt_session_browser (static_page (Ok scenario_rows)) ready_sheets
       plain_console = 0.
Proof.
  assert (H : exists e, read_auth_file corrupt_session_browser = Raise e)
    by (exists ValueError; reflexivity).
  split; [exact H|].
  split.
  - exact (proj1 (session_errors_recovered corrupt_session_browser
                    (static_page (Ok scenario_rows)) (or_intror (or_introl H)))).
  - vm_compute. reflexivity.
Defined.

Lemma scrape_keyword_data_ok {page : Type} (p : Page page) (w : world page) :
  exists kd w', scrape_keyword_data p w = (Ok kd, w').
Proof.
  destruct (locator_all p (page_state w)) as [[rows|e] s] eqn:L.
  - rewrite (scrape_keyword_data_rows p w rows s L). eauto.
  - rewrite (scrape_keyword_data_raise p w e s L). eauto.
Qed.

(** X13.  The exit status is 0 only if every step of the browser session
    succeeded: entering and leaving the [with] block, the launch, the
    context, the page, and the calls on the page up to [browser.close];
    and the publisher returned [True] on the records, which were not
    empty; the summary was then printed without an error.  In particular
    a failure to close the browser gives status 1, whatever was
    scraped. *)
Theorem main_success_needs_every_step {page : Type} (b : Browser page) (p : Page page)
  (g : Sheets) (c : Console) :
  main b p g c = 0 ->
  playwright_enter b = Ok tt
  /\ launch b = Ok tt
  /\ new_context b (storage_state (load_auth_storage b)) = Ok tt
  /\ playwright_exit b = Ok tt
  /\ exists s0 n keywords_data w',
       new_page b = Ok s0
       /\ page_session b p (fresh s0) = (Ok (n, keywords_data), w')
       /\ (exists s s', browser_close b s = (Ok tt, s'))
       /\ keywords_data <> []
       /\ publish_ok g keywords_data = true
       /\ print_summary c n (Z.of_nat (List.length keywords_data)) true = Ok tt.
Proof.
  rewrite main_status, main_body_run.
  unfold scraped, with_playwright, browser_session, bind.
  destruct (playwright_enter b) as [[]|e]; [|discriminate].
  destruct (launch b) as [[]|e];
    [|destruct (playwright_exit b); discriminate].
  destruct (new_context b _) as [[]|e];
    [|destruct (playwright_exit b); discriminate].
  destruct (new_page b) as [s0|e];
    [|destruct (playwright_exit b); discriminate].
  change {| page_state := s0; page_calls := [] |} with (fresh s0).
  destruct (page_session b p (fresh s0)) as [[[n kd]|e] w'] eqn:P; simpl;
    [|destruct (playwright_exit b); discriminate].
  destruct (playwright_exit b) as [[]|e]; [|discriminate].
  destruct (publish_ok g kd) eqn:K;
    [|destruct (print_summary c n _ false); discriminate].
  destruct (print_summary c n _ true) as [[]|e] eqn:W; [|discriminate].
  intros _. repeat split; try reflexivity.
  exists s0, n, kd, w'. repeat split; try reflexivity.
  - exact P.
  - revert P. unfold page_session, bindM, perform, ret. simpl.
    destruct (apply_stealth_sync b s0) as [[[]|e] s1]; [|discriminate]. simpl.
    destruct (goto b MALT_URL s1) as [[[]|e] s2]; [|discriminate]. simpl.
    destruct (wait_for_selector b ".keywords__row" 15000 s2) as [[[]|e] s3];
      [|discriminate]. simpl.
    destruct (expand_keyword_table p _) as [m w1].
    destruct (scrape_keyword_data_ok p w1) as (kd' & w2 & ->).
    destruct (browser_close b (page_state w2)) as [[[]|e] s4] eqn:C; [|discriminate].
    intros _. eauto.
  - exact (publish_ok_nonempty g kd K).
  - exact K.
  - exact W.
Qed.

Lemma main_success_needs_every_step_witness :
  main plain_browser (static_page (Ok scenario_rows)) ready_sheets plain_console = 0
  /\ playwright_exit plain_browser = Ok tt
  /\ main failing_close_browser (static_page (Ok scenario_rows)) ready_sheets
       plain_console = 1.
Proof.
  assert (H : main plain_browser (static_page (Ok scenario_rows)) ready_sheets
                plain_console = 0)
    by (vm_compute; reflexivity).
  split; [exact H|]. split.
  - exact (proj1 (proj2 (proj2 (proj2
             (main_success_needs_every_step plain_browser
                (static_page (Ok scenario_rows)) ready_sheets plain_console H))))).
  - vm_compute. reflexivity.
Defined.

(* ================================================================== *)
(** * The normalisers on decimal numerals *)
(* ================================================================== *)

Lemma digit_not_space (c : ascii) :
  Py.is_digit c = true ->
  Py.is_space c = false /\ Py.is_num_space c = false
  /\ Ascii.eqb c "_" = false /\ Ascii.eqb c "#" = false
  /\ Ascii.eqb c "-" = false /\ Ascii.eqb c "+" = false.
Proof.
  destruct c as [[] [] [] [] [] [] [] []]; intros H; try discriminate H;
    repeat split; reflexivity.
Qed.

Lemma rstrip_by_no_space (sp : ascii -> bool) (s : string) :
  (forall c, Py.contains c s = true -> sp c = false) ->
  Py.rstrip_by sp s = s.
Proof.
  induction s as [|c r IH]; [reflexivity|]. intros H.
  rewrite rstrip_by_cons, IH.
  - destruct r; [|reflexivity].
    rewrite (H c); [reflexivity|]. simpl. now rewrite Ascii.eqb_refl.
  - intros d Hd. apply H. simpl. rewrite Hd. apply orb_true_r.
Qed.

Lemma all_digits_contains (s : string) (c : ascii) :
  all_digits s = true -> Py.contains c s = true -> Py.is_digit c = true.
Proof.
  induction s as [|d r IH]; simpl; [discriminate|].
  intros H. apply andb_true_iff in H as [Hd Hr].
  intros K. apply orb_true_iff in K as [K|K]; [|auto].
  apply Ascii.eqb_eq in K. now subst d.
Qed.

Lemma strip_digits (s : string) : all_digits s = true -> Py.strip s = s.
Proof.
  intros H. unfold Py.strip. rewrite rstrip_by_no_space.
  - destruct s as [|c r]; [reflexivity|]. simpl in H.
    apply andb_true_iff in H as [Hc _]. simpl.
    now rewrite (proj1 (digit_not_space c Hc)).
  - intros c Hc. exact (proj1 (digit_not_space c (all_digits_contains s c H Hc))).
Qed.

Lemma contains_marker_digits (s : string) :
  all_digits s = true -> Py.contains "#" s = false.
Proof.
  induction s as [|c r IH]; simpl; [reflexivity|].
  intros H. apply andb_true_iff in H as [Hc Hr].
  destruct (digit_not_space c Hc) as (_ & _ & _ & E & _).
  now rewrite E, IH.
Qed.

Lemma scan_int_digits_all (s : string) :
  forall prev,
    Ascii.eqb prev "_" = false -> all_digits s = true ->
    Py.scan_int_digits prev s = Some (s, EmptyString).
Proof.
  induction s as [|c r IH]; simpl; intros prev Hp H.
  - now rewrite Hp.
  - apply andb_true_iff in H as [Hc Hr].
    destruct (digit_not_space c Hc) as (_ & _ & E & _).
    rewrite E, Hc, (IH c E Hr). reflexivity.
Qed.

Lemma int_of_str_digits (d : string) :
  d <> "" -> all_digits d = true -> Py.len d <= 4300 ->
  Py.int_of_str d = Ok (Py.digits_val d).
Proof.
  intros Hne H Hlen. destruct d as [|c r]; [congruence|].
  pose proof H as H'. simpl in H'. apply andb_true_iff in H' as [Hc Hr].
  destruct (digit_not_space c Hc) as (_ & Hs & Hu & _ & Hm & Hp).
  unfold Py.int_of_str. cbn [Py.lstrip_by]. rewrite Hs.
  assert (P : Py.parse_sign (String c r) = (false, String c r)).
  { destruct c as [[] [] [] [] [] [] [] []]; try discriminate; reflexivity. }
  rewrite P.
  assert (S : Py.scan_int_digits "000" (String c r) = Some (String c r, EmptyString))
    by (apply scan_int_digits_all; [reflexivity|exact H]).
  assert (L : (Py.int_max_str_digits <? Py.len (String c r)) = false)
    by (apply Z.ltb_ge; exact Hlen).
  assert (G : match Py.scan_int_digits "000" (String c r) with
              | None => Raise ValueError
              | Some (d, t) =>
                  if Py.is_empty d then Raise ValueError
                  else if negb (Py.is_empty (Py.lstrip_by Py.is_num_space t))
                       then Raise ValueError
                       else if Py.int_max_str_digits <? Py.len d then Raise ValueError
                            else Ok (if false then - Py.digits_val d else Py.digits_val d)
              end = Ok (Py.digits_val (String c r))).
  { rewrite S. cbn [Py.is_empty Py.lstrip_by negb]. rewrite L. reflexivity. }
  rewrite <- G.
  destruct c as [[] [] [] [] [] [] [] []]; try discriminate; reflexivity.
Qed.

Lemma clean_rank_digits (d : string) :
  d <> "" -> all_digits d = true -> Py.len d <= 4300 ->
  clean_rank d = Py.digits_val d
  /\ clean_rank (String "#" d) = Py.digits_val d
  /\ 0 <= Py.digits_val d.
Proof.
  intros Hne H Hlen.
  assert (R : clean_rank d = Py.digits_val d).
  { unfold clean_rank, clean_rank_py, try_except, clean_rank_body.
    rewrite (strip_digits d H), (remove_char_absent "#" d (contains_marker_digits d H)).
    now rewrite (int_of_str_digits d Hne H Hlen). }
  split; [exact R|]. split.
  - unfold clean_rank, clean_rank_py, try_except, clean_rank_body.
    assert (S : Py.strip (String "#" d) = String "#" d).
    { unfold Py.strip. rewrite rstrip_by_no_space; [reflexivity|].
      intros c Hc. cbn [Py.contains] in Hc. apply orb_true_iff in Hc as [Hc|Hc].
      - apply Ascii.eqb_eq in Hc. subst c. reflexivity.
      - exact (proj1 (digit_not_space c (all_digits_contains d c H Hc))). }
    rewrite S. cbn [Py.remove_char]. rewrite Ascii.eqb_refl.
    rewrite (remove_char_absent "#" d (contains_marker_digits d H)).
    now rewrite (int_of_str_digits d Hne H Hlen).
  - apply digits_val_from_nonneg; [lia|exact H].
Qed.

(** X14.  On a numeral, that is a non-empty text of at most 4300 decimal
    digits, [clean_rank] returns the number the digits write in base 10
    (leading zeros allowed), and it returns the same number when the
    numeral is preceded by the marker [#]. *)
Theorem clean_rank_numeral (d : string) :
  d <> "" -> all_digits d = true -> Py.len d <= 4300 ->
  clean_rank d = Py.digits_val d
  /\ clean_rank (String "#" d) = Py.digits_val d
  /\ 0 <= Py.digits_val d.
Proof.
  exact (clean_rank_digits d).
Qed.

Lemma clean_rank_numeral_witness :
  "0042" <> "" /\ all_digits "0042" = true /\ Py.len "0042" <= 4300
  /\ clean_rank "0042" = 42 /\ clean_rank "#0042" = 42.
Proof.
  split; [discriminate|]. split; [reflexivity|]. split; [discriminate|].
  destruct (clean_rank_numeral "0042") as (A & B & _);
    [discriminate|reflexivity|discriminate|].
  split; [exact A|exact B].
Defined.

Lemma digits_val_from_uint (l : Decimal.uint) :
  forall acc : positive,
    Py.digits_val_from (Z.pos acc) (NilEmpty.string_of_uint l)
    = Z.pos (Pos.of_uint_acc l acc).
Proof.
  induction l; intros acc; cbn [NilEmpty.string_of_uint Py.digits_val_from Pos.of_uint_acc];
    try reflexivity;
    rewrite <- IHl; f_equal; unfold Py.digit_val, Py.code; simpl N_of_ascii; lia.
Qed.

Lemma digits_val_uint (l : Decimal.uint) :
  Py.digits_val (NilEmpty.string_of_uint l) = Z.of_N (N.of_uint l).
Proof.
  unfold Py.digits_val, N.of_uint.
  induction l; cbn [NilEmpty.string_of_uint Py.digits_val_from Pos.of_uint];
    try reflexivity; try exact IHl;
    match goal with
    | |- Py.digits_val_from ?a _ = Z.of_N (N.pos (Pos.of_uint_acc _ ?k)) =>
        change a with (Z.pos k); apply digits_val_from_uint
    end.
Qed.

Lemma all_digits_uint (l : Decimal.uint) :
  all_digits (NilEmpty.string_of_uint l) = true.
Proof.
  induction l; simpl; auto.
Qed.

Lemma string_of_uint_digits (u : Decimal.uint) :
  NilZero.string_of_uint u <> ""
  /\ all_digits (NilZero.string_of_uint u) = true
  /\ Py.digits_val (NilZero.string_of_uint u) = Z.of_N (N.of_uint u).
Proof.
  destruct u;
    try (change (NilZero.string_of_uint ?d) with (NilEmpty.string_of_uint d);
         split; [discriminate|];
         split; [apply all_digits_uint|apply digits_val_uint]).
  split; [discriminate|]. split; reflexivity.
Qed.

Lemma decimal_numeral_digits (n : N) :
  decimal_numeral n <> "" /\ all_digits (decimal_numeral n) = true
  /\ Py.digits_val (decimal_numeral n) = Z.of_N n.
Proof.
  unfold decimal_numeral.
  pose proof (string_of_uint_digits (N.to_uint n)) as G.
  rewrite DecimalN.Unsigned.of_to in G. exact G.
Qed.

(** X15.  Printing and reading back: for every natural number [n] whose
    decimal numeral has at most 4300 digits, [clean_rank] of the numeral
    is [n], and so is [clean_rank] of the numeral preceded by [#]. *)
Theorem clean_rank_decimal_numeral (n : N) :
  Py.len (decimal_numeral n) <= 4300 ->
  clean_rank (decimal_numeral n) = Z.of_N n
  /\ clean_rank (String "#" (decimal_numeral n)) = Z.of_N n.
Proof.
  intros Hlen. destruct (decimal_numeral_digits n) as (Hne & Hd & Hv).
  destruct (clean_rank_digits _ Hne Hd Hlen) as (A & B & _).
  rewrite A, B, Hv. split; reflexivity.
Qed.

Lemma clean_rank_decimal_numeral_witness :
  decimal_numeral 2024 = "2024"
  /\ Py.len (decimal_numeral 2024) <= 4300
  /\ clean_rank "2024" = 2024 /\ clean_rank "#2024" = 2024.
Proof.
  split; [reflexivity|]. split; [discriminate|].
  exact (clean_rank_decimal_numeral 2024 ltac:(discriminate)).
Defined.

(* ================================================================== *)
(** * The count normaliser on whole numbers *)
(* ================================================================== *)

(** The binary64 steps of [clean_appearances] lose nothing on a whole
    number below [2 ^ 53]: the quotient [d / 1] is rounded to a 53-bit
    mantissa that is [d] shifted left, and [int] shifts it back. *)

Lemma shiftl_iter_xO (d j : positive) :
  Z.shiftl (Zpos d) (Zpos j) = Zpos (Pos.iter xO d j).
Proof.
  unfold Z.shiftl. induction j using Pos.peano_ind.
  - reflexivity.
  - rewrite !Pos.iter_succ, IHj. reflexivity.
Qed.

Lemma digits2_iter_xO (d j : positive) :
  digits2_pos (Pos.iter xO d j) = (digits2_pos d + j)%positive.
Proof.
  induction j using Pos.peano_ind.
  - simpl. now rewrite Pos.add_1_r.
  - rewrite Pos.iter_succ. simpl. rewrite IHj. lia.
Qed.

Lemma iter_xO_even (d j : positive) :
  exists q, Pos.iter xO d j = xO q
            /\ Zpos q = Z.shiftl (Zpos d) (Zpos j - 1)
            /\ Zpos (digits2_pos q) = Zpos (digits2_pos d) + Zpos j - 1.
Proof.
  destruct (Pos.succ_pred_or j) as [->|E].
  - exists d. split; [reflexivity|]. split; [reflexivity|lia].
  - rewrite <- E. rewrite Pos.iter_succ. exists (Pos.iter xO d (Pos.pred j)).
    split; [reflexivity|]. split.
    + rewrite <- shiftl_iter_xO. f_equal. lia.
    + rewrite digits2_iter_xO. lia.
Qed.

Lemma div_eucl_1 (a : Z) : Z.div_eucl a 1 = (a, 0).
Proof.
  pose proof (Z.div_1_r a) as Q. pose proof (Z.mod_1_r a) as R.
  unfold Z.div, Z.modulo in Q, R. destruct (Z.div_eucl a 1) as [q r].
  simpl in Q, R. now subst.
Qed.

Lemma round_ratio_integer (d : positive) :
  Zpos (digits2_pos d) <= 53 ->
  exists m,
    Py.round_ratio false (Zpos d) 1
    = S754_finite false m (Zpos (digits2_pos d) - 53)
    /\ Zpos m = Z.shiftl (Zpos d) (53 - Zpos (digits2_pos d)).
Proof.
  intros Hk. unfold Py.round_ratio, SFdiv_core_binary.
  cbn [Zdigits2 digits2_pos].
  set (k := digits2_pos d) in *.
  replace (Z.min (fexp Py.prec Py.emax (Z.sub (Z.add (Zpos k) 0) (Z.add 1 0))) (Z.sub 0 0))
    with (Zpos k - 54) by (unfold fexp, emin, Py.prec, Py.emax; lia).
  replace (0 - 0 - (Zpos k - 54)) with (54 - Zpos k) by lia.
  destruct (54 - Zpos k) as [|j|j] eqn:J; try lia.
  change (IntDef.Z.shiftl (Zpos d) (Zpos j)) with (Z.shiftl (Zpos d) (Zpos j)).
  rewrite shiftl_iter_xO.
  change (IntDef.Z.div_eucl (Zpos (Pos.iter xO d j)) 1)
    with (Z.div_eucl (Zpos (Pos.iter xO d j)) 1).
  rewrite div_eucl_1. change (new_location 1 0) with loc_Exact.
  destruct (iter_xO_even d j) as (q & Eq & Hq & Dq). rewrite Eq. fold k in Dq.
  unfold binary_round_aux, shr_fexp.
  cbn [Zdigits2 digits2_pos shr_record_of_loc].
  replace (fexp Py.prec Py.emax (Zpos (Pos.succ (digits2_pos q)) + (Zpos k - 54))
           - (Zpos k - 54)) with 1
    by (unfold fexp, emin, Py.prec, Py.emax; lia).
  cbn [shr iter_pos shr_1 shr_m loc_of_shr_record round_nearest_even orb Zdigits2].
  replace (fexp Py.prec Py.emax (Zpos (digits2_pos q) + (Zpos k - 54 + 1))
           - (Zpos k - 54 + 1)) with 0
    by (unfold fexp, emin, Py.prec, Py.emax; lia).
  cbn [shr shr_m].
  replace (Zpos k - 54 + 1 <=? Py.emax - Py.prec) with true
    by (symmetry; apply Z.leb_le; unfold Py.prec, Py.emax; lia).
  exists q. split; [f_equal; lia|]. rewrite Hq. f_equal. lia.
Qed.

Lemma digits2_pos_lower (d : positive) :
  2 ^ (Zpos (digits2_pos d) - 1) <= Zpos d.
Proof.
  induction d as [p IH|p IH|]; cbn [digits2_pos].
  - rewrite Pos2Z.inj_succ. replace (Z.succ (Zpos (digits2_pos p)) - 1)
      with (Z.succ (Zpos (digits2_pos p) - 1)) by lia.
    rewrite Z.pow_succ_r by lia. lia.
  - rewrite Pos2Z.inj_succ. replace (Z.succ (Zpos (digits2_pos p)) - 1)
      with (Z.succ (Zpos (digits2_pos p) - 1)) by lia.
    rewrite Z.pow_succ_r by lia. lia.
  - simpl. lia.
Qed.

Lemma digits2_pos_small (d : positive) :
  Zpos d < 2 ^ 53 -> Zpos (digits2_pos d) <= 53.
Proof.
  intros H. destruct (Z_le_gt_dec (Zpos (digits2_pos d)) 53) as [L|G]; [exact L|].
  pose proof (digits2_pos_lower d) as B.
  assert (2 ^ 53 <= 2 ^ (Zpos (digits2_pos d) - 1)) by (apply Z.pow_le_mono_r; lia).
  lia.
Qed.

Lemma int_of_round_ratio_integer (d : positive) :
  Zpos d < 2 ^ 53 ->
  Py.int_of_float (Py.round_ratio false (Zpos d) 1) = Ok (Zpos d).
Proof.
  intros H. pose proof (digits2_pos_small d H) as Hk.
  destruct (round_ratio_integer d Hk) as (m & -> & Hm).
  unfold Py.int_of_float. f_equal.
  destruct (0 <=? Zpos (digits2_pos d) - 53) eqn:E.
  - apply Z.leb_le in E.
    replace (Zpos (digits2_pos d) - 53) with 0 by lia.
    rewrite Z.shiftl_0_r, Hm.
    replace (53 - Zpos (digits2_pos d)) with 0 by lia. apply Z.shiftl_0_r.
  - apply Z.leb_gt in E. rewrite Hm.
    replace (- (Zpos (digits2_pos d) - 53)) with (53 - Zpos (digits2_pos d)) by lia.
    rewrite Z.shiftr_shiftl_l by lia.
    replace (53 - Zpos (digits2_pos d) - (53 - Zpos (digits2_pos d))) with 0 by lia.
    apply Z.shiftl_0_r.
Qed.

Lemma digit_plain (c : ascii) :
  Py.is_digit c = true ->
  Py.lower_char c = c /\ Ascii.eqb c "k" = false /\ Ascii.eqb c "." = false.
Proof.
  destruct c as [[] [] [] [] [] [] [] []]; intros H; try discriminate H;
    repeat split; reflexivity.
Qed.

Lemma lower_digits (s : string) : all_digits s = true -> Py.lower s = s.
Proof.
  induction s as [|c r IH]; simpl; [reflexivity|].
  intros H. apply andb_true_iff in H as [Hc Hr].
  now rewrite (proj1 (digit_plain c Hc)), (IH Hr).
Qed.

Lemma contains_k_digits (s : string) :
  all_digits s = true -> Py.contains "k" s = false.
Proof.
  induction s as [|c r IH]; simpl; [reflexivity|].
  intros H. apply andb_true_iff in H as [Hc Hr].
  destruct (digit_plain c Hc) as (_ & E & _).
  now rewrite E, IH.
Qed.

Lemma strip_underscores_digits (s : string) :
  forall prev,
    Ascii.eqb prev "_" = false -> all_digits s = true ->
    Py.strip_underscores prev s = Some s.
Proof.
  induction s as [|c r IH]; simpl; intros prev Hp H.
  - now rewrite Hp.
  - apply andb_true_iff in H as [Hc Hr].
    destruct (digit_not_space c Hc) as (_ & _ & E & _).
    rewrite E, Hp, (IH c E Hr). reflexivity.
Qed.

Lemma num_strip_digits (s : string) :
  all_digits s = true ->
  Py.lstrip_by Py.is_num_space (Py.rstrip_by Py.is_num_space s) = s.
Proof.
  intros H. rewrite rstrip_by_no_space.
  - destruct s as [|c r]; [reflexivity|]. simpl in H.
    apply andb_true_iff in H as [Hc _]. simpl.
    now rewrite (proj1 (proj2 (digit_not_space c Hc))).
  - intros c Hc.
    exact (proj1 (proj2 (digit_not_space c (all_digits_contains s c H Hc)))).
Qed.

Lemma take_digits_all (s : string) :
  all_digits s = true -> Py.take_digits s = (s, EmptyString).
Proof.
  induction s as [|c r IH]; simpl; [reflexivity|].
  intros H. apply andb_true_iff in H as [Hc Hr].
  now rewrite Hc, (IH Hr).
Qed.

Lemma append_empty (s : string) : (s ++ "")%string = s.
Proof.
  induction s as [|c r IH]; simpl; [reflexivity|]. now rewrite IH.
Qed.

Lemma drop_zeros_cons (c : ascii) (r : string) :
  Py.drop_zeros (String c r)
  = if Ascii.eqb c "0" then Py.drop_zeros r else String c r.
Proof.
  destruct c as [[] [] [] [] [] [] [] []]; reflexivity.
Qed.

Lemma digit_val_range (c : ascii) :
  Py.is_digit c = true ->
  0 <= Py.digit_val c <= 9
  /\ (if Ascii.eqb c "0" then Py.digit_val c = 0 else 1 <= Py.digit_val c).
Proof.
  destruct c as [[] [] [] [] [] [] [] []]; intros H; try discriminate H;
    vm_compute; repeat split; congruence.
Qed.

Lemma digits_val_from_lower (s : string) :
  forall acc,
    0 <= acc -> all_digits s = true ->
    acc * 10 ^ Py.len s <= Py.digits_val_from acc s.
Proof.
  unfold Py.len.
  induction s as [|c r IH]; cbn [Py.digits_val_from all_digits String.length];
    intros acc Hacc H.
  - simpl. lia.
  - apply andb_true_iff in H as [Hc Hr].
    destruct (digit_val_range c Hc) as [[L U] _].
    assert (P : 0 <= 10 * acc + Py.digit_val c) by lia.
    specialize (IH _ P Hr).
    rewrite Nat2Z.inj_succ, Z.pow_succ_r by lia.
    assert (0 < 10 ^ Z.of_nat (String.length r)) by (apply Z.pow_pos_nonneg; lia).
    nia.
Qed.

Lemma drop_zeros_short (s : string) :
  all_digits s = true ->
  Py.drop_zeros s = ""
  \/ 10 ^ (Py.len (Py.drop_zeros s) - 1) <= Py.digits_val s.
Proof.
  unfold Py.digits_val.
  induction s as [|c r IH]; intros H; [left; reflexivity|].
  cbn [all_digits] in H. apply andb_true_iff in H as [Hc Hr].
  rewrite drop_zeros_cons. cbn [Py.digits_val_from].
  destruct (digit_val_range c Hc) as [[L U] Z0].
  destruct (Ascii.eqb c "0").
  - rewrite Z0. exact (IH Hr).
  - right. unfold Py.len. cbn [String.length]. rewrite Nat2Z.inj_succ.
    replace (Z.succ (Z.of_nat (String.length r)) - 1)
      with (Z.of_nat (String.length r)) by lia.
    pose proof (digits_val_from_lower r (10 * 0 + Py.digit_val c) ltac:(lia) Hr) as B.
    unfold Py.len in B.
    assert (0 < 10 ^ Z.of_nat (String.length r)) by (apply Z.pow_pos_nonneg; lia).
    nia.
Qed.

Lemma drop_zeros_len (s : string) :
  all_digits s = true -> Py.digits_val s < 2 ^ 53 ->
  Py.len (Py.drop_zeros s) <= 16.
Proof.
  intros H B. destruct (drop_zeros_short s H) as [E|E].
  - rewrite E. discriminate.
  - destruct (Z_le_gt_dec (Py.len (Py.drop_zeros s)) 16) as [L|G]; [exact L|].
    assert (10 ^ 16 <= 10 ^ (Py.len (Py.drop_zeros s) - 1))
      by (apply Z.pow_le_mono_r; lia).
    assert (2 ^ 53 < 10 ^ 16) by reflexivity. lia.
Qed.

Lemma parse_decimal_digits (d : string) :
  d <> "" -> all_digits d = true -> Py.digits_val d < 2 ^ 53 ->
  Py.parse_decimal d = Some (false, d, "", 0).
Proof.
  intros Hne H B. unfold Py.parse_decimal.
  assert (P : Py.parse_sign d = (false, d)).
  { destruct d as [|c r]; [reflexivity|]. simpl in H.
    apply andb_true_iff in H as [Hc _].
    destruct c as [[] [] [] [] [] [] [] []]; try discriminate; reflexivity. }
  rewrite P, (take_digits_all d H), append_empty.
  assert (E : Py.is_empty d = false) by (destruct d; [congruence|reflexivity]).
  rewrite E. cbn [andb].
  assert (L : (Py.MAX_DIGITS <? Py.len (Py.drop_zeros d)) = false).
  { apply Z.ltb_ge. pose proof (drop_zeros_len d H B). unfold Py.MAX_DIGITS. lia. }
  rewrite L. reflexivity.
Qed.

Lemma float_of_str_digits (d : string) :
  d <> "" -> all_digits d = true -> Py.digits_val d < 2 ^ 53 ->
  (x <- Py.float_of_str d ;; Py.int_of_float x)%py = Ok (Py.digits_val d).
Proof.
  intros Hne H B. unfold Py.float_of_str.
  rewrite (strip_underscores_digits d "000" eq_refl H), (num_strip_digits d H),
    (parse_decimal_digits d Hne H B).
  cbn [bind]. unfold Py.decimal_to_float. rewrite append_empty.
  pose proof (digits_val_from_nonneg d 0 ltac:(lia) H) as N0.
  fold (Py.digits_val d) in N0.
  destruct (Py.digits_val d) as [|p|p] eqn:V; [reflexivity| |lia].
  cbn [Z.eqb]. change (0 - Py.len "") with 0.
  change (10 ^ Z.max 0 0) with 1. change (10 ^ Z.max (- 0) 0) with 1.
  rewrite Z.mul_1_r. apply int_of_round_ratio_integer. exact B.
Qed.

Lemma clean_appearances_digits (d : string) :
  d <> "" -> all_digits d = true -> Py.digits_val d < 2 ^ 53 ->
  clean_appearances d = Py.digits_val d.
Proof.
  intros Hne H B.
  unfold clean_appearances, clean_appearances_py, try_except, clean_appearances_body.
  rewrite (strip_digits d H), (lower_digits d H), (contains_k_digits d H).
  now rewrite (float_of_str_digits d Hne H B).
Qed.

(** X16.  On a non-empty text of decimal digits (leading zeros allowed, any
    length) that writes a number below [2 ^ 53], [clean_appearances]
    returns that number: reading the text as a double and truncating the
    double loses nothing. *)
Theorem clean_appearances_numeral (d : string) :
  d <> "" -> all_digits d = true -> Py.digits_val d < 2 ^ 53 ->
  clean_appearances d = Py.digits_val d.
Proof.
  exact (clean_appearances_digits d).
Qed.

Lemma clean_appearances_numeral_witness :
  "9007199254740991" <> "" /\ all_digits "9007199254740991" = true
  /\ Py.digits_val "9007199254740991" < 2 ^ 53
  /\ clean_appearances "9007199254740991" = 9007199254740991.
Proof.
  split; [discriminate|]. split; [reflexivity|]. split; [reflexivity|].
  exact (clean_appearances_numeral "9007199254740991"
           ltac:(discriminate) eq_refl eq_refl).
Defined.

(** The product with [1000.0] is exact as well, as long as it stays below
    [2 ^ 53]: the 106-bit product of the two mantissas ends in enough zero
    bits for the rounding shift to drop nothing. *)

Lemma iter_pos_iter {A : Type} (f : A -> A) (n : positive) :
  forall x, iter_pos f n x = Pos.iter f x n.
Proof.
  induction n as [n IH|n IH|]; intros x; cbn [iter_pos Pos.iter].
  - rewrite !IH, !Pos.iter_swap. reflexivity.
  - rewrite !IH. reflexivity.
  - reflexivity.
Qed.

Lemma shr_exact (s : positive) :
  forall q : positive,
    iter_pos shr_1 s {| shr_m := Zpos (Pos.iter xO q s); shr_r := false; shr_s := false |}
    = {| shr_m := Zpos q; shr_r := false; shr_s := false |}.
Proof.
  intros q. rewrite iter_pos_iter. revert q.
  induction s as [|s IH] using Pos.peano_ind; intros q.
  - reflexivity.
  - rewrite !Pos.iter_succ.
    replace (xO (Pos.iter xO q s)) with (Pos.iter xO (xO q) s)
      by apply Pos.iter_swap.
    rewrite IH. reflexivity.
Qed.

Lemma round_exact (q s : positive) (e : Z) :
  Zpos (digits2_pos q) = 53 ->
  -1074 <= e + Zpos s <= 971 ->
  binary_round_aux Py.prec Py.emax false (Zpos (Pos.iter xO q s)) e loc_Exact
  = S754_finite false q (e + Zpos s).
Proof.
  intros D B. unfold binary_round_aux, shr_fexp.
  cbn [Zdigits2]. rewrite digits2_iter_xO, Pos2Z.inj_add, D.
  replace (fexp Py.prec Py.emax (53 + Zpos s + e) - e) with (Zpos s)
    by (unfold fexp, emin, Py.prec, Py.emax; lia).
  cbn [shr shr_record_of_loc]. rewrite shr_exact.
  cbn [shr_m loc_of_shr_record round_nearest_even Zdigits2]. rewrite D.
  replace (fexp Py.prec Py.emax (53 + (e + Zpos s)) - (e + Zpos s)) with 0
    by (unfold fexp, emin, Py.prec, Py.emax; lia).
  cbn [shr shr_m shr_record_of_loc].
  replace (e + Zpos s <=? Py.emax - Py.prec) with true
    by (symmetry; apply Z.leb_le; unfold Py.prec, Py.emax; lia).
  reflexivity.
Qed.

Lemma digits2_pos_upper (d : positive) : Zpos d < 2 ^ Zpos (digits2_pos d).
Proof.
  induction d as [p IH|p IH|]; cbn [digits2_pos];
    try (rewrite Pos2Z.inj_succ, Z.pow_succ_r by lia; lia).
  reflexivity.
Qed.

Lemma digits2_pos_mono (a b : positive) :
  Zpos a <= Zpos b -> Zpos (digits2_pos a) <= Zpos (digits2_pos b).
Proof.
  intros H. pose proof (digits2_pos_lower a) as L.
  pose proof (digits2_pos_upper b) as U.
  assert (P : 2 ^ (Zpos (digits2_pos a) - 1) < 2 ^ Zpos (digits2_pos b)) by lia.
  apply Z.pow_lt_mono_r_iff in P; lia.
Qed.

Lemma iter_xO_mul (q s : positive) :
  Zpos (Pos.iter xO q s) = Zpos q * 2 ^ Zpos s.
Proof.
  rewrite <- shiftl_iter_xO. apply Z.shiftl_mul_pow2. lia.
Qed.

Lemma normalised (p : positive) (n : Z) :
  0 <= n ->
  exists q, Zpos q = Zpos p * 2 ^ n
            /\ Zpos (digits2_pos q) = Zpos (digits2_pos p) + n.
Proof.
  intros H. destruct n as [|j|j]; [| |lia].
  - exists p. split; lia.
  - exists (Pos.iter xO p j). split; [apply iter_xO_mul|].
    rewrite digits2_iter_xO. lia.
Qed.

Lemma fmul_thousand (d : positive) :
  1000 * Zpos d < 2 ^ 53 ->
  Py.int_of_float (Py.fmul (Py.round_ratio false (Zpos d) 1) (Py.float_of_Z 1000))
  = Ok (1000 * Zpos d).
Proof.
  intros H.
  assert (Hd : Zpos d < 2 ^ 53) by lia.
  pose proof (digits2_pos_small d Hd) as Hk.
  destruct (round_ratio_integer d Hk) as (m & -> & Hm).
  rewrite Z.shiftl_mul_pow2 in Hm by lia.
  change (Py.float_of_Z 1000) with (S754_finite false 8796093022208000 (-43)).
  unfold Py.fmul, SFmul. cbn [xorb].
  set (k := Zpos (digits2_pos d)) in *.
  assert (Hp : Zpos (1000 * d) < 2 ^ 53) by lia.
  pose proof (digits2_pos_small _ Hp) as Hk'.
  pose proof (digits2_pos_mono d (1000 * d) ltac:(lia)) as Hkk. fold k in Hkk.
  set (k' := Zpos (digits2_pos (1000 * d))) in *.
  destruct (normalised (1000 * d) (53 - k') ltac:(lia)) as (q & Hq & Dq).
  fold k' in Dq.
  destruct (k' + 43 - k) as [|s|s] eqn:S; try lia.
  assert (E : (m * 8796093022208000)%positive = Pos.iter xO q s).
  { apply Pos2Z.inj. rewrite Pos2Z.inj_mul, iter_xO_mul, Hq, Hm, <- S.
    change (Zpos 8796093022208000) with (1000 * 2 ^ 43).
    rewrite Pos2Z.inj_mul.
    replace (k' + 43 - k) with ((53 - k) + 43 - (53 - k')) by lia.
    assert (T : 2 ^ (53 - k) * 2 ^ 43 = 2 ^ (53 - k') * 2 ^ (53 - k + 43 - (53 - k'))).
    { rewrite <- !Z.pow_add_r by lia. f_equal. lia. }
    nia. }
  rewrite E, round_exact by lia.
  unfold Py.int_of_float. f_equal.
  replace (k - 53 + -43 + Zpos s) with (k' - 53) by lia.
  rewrite Hq. rewrite <- Z.shiftl_mul_pow2 by lia.
  destruct (0 <=? k' - 53) eqn:L.
  - apply Z.leb_le in L. replace (k' - 53) with 0 by lia.
    replace (53 - k') with 0 by lia. rewrite !Z.shiftl_0_r. lia.
  - replace (- (k' - 53)) with (53 - k') by lia.
    rewrite Z.shiftr_shiftl_l by lia.
    replace (53 - k' - (53 - k')) with 0 by lia. rewrite Z.shiftl_0_r. lia.
Qed.

Lemma float_of_str_whole (d : string) :
  d <> "" -> all_digits d = true -> Py.digits_val d < 2 ^ 53 ->
  Py.float_of_str d
  = Ok (if Py.digits_val d =? 0 then S754_zero false
        else Py.round_ratio false (Py.digits_val d) 1).
Proof.
  intros Hne H B. unfold Py.float_of_str.
  rewrite (strip_underscores_digits d "000" eq_refl H), (num_strip_digits d H),
    (parse_decimal_digits d Hne H B).
  unfold Py.decimal_to_float. rewrite append_empty.
  change (0 - Py.len "") with 0.
  change (10 ^ Z.max 0 0) with 1. change (10 ^ Z.max (- 0) 0) with 1.
  now rewrite Z.mul_1_r.
Qed.

Lemma suffix_letter (c : ascii) :
  Py.lower_char c = "k"%char ->
  Py.is_space c = false /\ Py.is_digit c = false.
Proof.
  destruct c as [[] [] [] [] [] [] [] []]; intros H; try discriminate H;
    split; reflexivity.
Qed.

Lemma contains_app (c : ascii) (a b : string) :
  Py.contains c (a ++ b) = Py.contains c a || Py.contains c b.
Proof.
  induction a as [|x r IH]; simpl; [reflexivity|].
  now rewrite IH, orb_assoc.
Qed.

Lemma strip_suffixed (d : string) (c : ascii) :
  all_digits d = true -> Py.is_space c = false ->
  Py.strip (d ++ String c "") = (d ++ String c "")%string.
Proof.
  intros H Hc. unfold Py.strip. rewrite rstrip_by_no_space.
  - destruct d as [|x r]; simpl; [now rewrite Hc|].
    simpl in H. apply andb_true_iff in H as [Hx _].
    now rewrite (proj1 (digit_not_space x Hx)).
  - intros x Hx. rewrite contains_app in Hx. apply orb_true_iff in Hx as [Hx|Hx].
    + exact (proj1 (digit_not_space x (all_digits_contains d x H Hx))).
    + simpl in Hx. rewrite orb_false_r in Hx. apply Ascii.eqb_eq in Hx.
      now subst x.
Qed.

Lemma lower_suffixed (d : string) (c : ascii) :
  all_digits d = true -> Py.lower_char c = "k"%char ->
  Py.lower (d ++ String c "") = (d ++ "k")%string.
Proof.
  intros H Hc. induction d as [|x r IH]; simpl; [now rewrite Hc|].
  simpl in H. apply andb_true_iff in H as [Hx Hr].
  now rewrite (proj1 (digit_plain x Hx)), (IH Hr).
Qed.

Lemma remove_suffix (d : string) :
  all_digits d = true ->
  Py.contains "k" (d ++ "k") = true /\ Py.remove_char "k" (d ++ "k") = d.
Proof.
  intros H. induction d as [|x r IH]; simpl; [split; reflexivity|].
  simpl in H. apply andb_true_iff in H as [Hx Hr].
  destruct (IH Hr) as [C R].
  destruct (digit_plain x Hx) as (_ & E & _).
  rewrite E, C, R. split; reflexivity.
Qed.

(** X17.  A non-empty text of decimal digits followed by [k] or [K], whose
    number times 1000 is below [2 ^ 53], gives exactly 1000 times the
    number: on whole numbers of thousands the product with [1000.0] is
    exact, so the unit lost on [32.3k] needs a fraction part. *)
Theorem clean_appearances_thousands (d : string) (c : ascii) :
  d <> "" -> all_digits d = true -> 1000 * Py.digits_val d < 2 ^ 53 ->
  Py.lower_char c = "k"%char ->
  clean_appearances (d ++ String c "") = 1000 * Py.digits_val d.
Proof.
  intros Hne H B Hc.
  pose proof (digits_val_from_nonneg d 0 ltac:(lia) H) as N0.
  fold (Py.digits_val d) in N0.
  destruct (suffix_letter c Hc) as [Sc _].
  destruct (remove_suffix d H) as [C R].
  unfold clean_appearances, clean_appearances_py, try_except, clean_appearances_body.
  rewrite (strip_suffixed d c H Sc), (lower_suffixed d c H Hc), C, R.
  rewrite (float_of_str_whole d Hne H ltac:(lia)). cbn [bind].
  destruct (Py.digits_val d) as [|p|p] eqn:V; [reflexivity| |lia].
  cbn [Z.eqb]. now rewrite (fmul_thousand p B).
Qed.

Lemma clean_appearances_thousands_witness :
  "0125" <> "" /\ all_digits "0125" = true /\ 1000 * Py.digits_val "0125" < 2 ^ 53
  /\ Py.lower_char "K" = "k"%char
  /\ clean_appearances "0125K" = 125000.
Proof.
  split; [discriminate|]. split; [reflexivity|]. split; [reflexivity|].
  split; [reflexivity|].
  exact (clean_appearances_thousands "0125" "K"
           ltac:(discriminate) eq_refl eq_refl eq_refl).
Defined.
